(** * teradata-mcp-server: dispatch, resilience and envelope core

    A shallow embedding of [src/teradata_mcp_server/server.py] and of
    [src/teradata_mcp_server/tools/evs/evs_tools.py].

    Python values are an inductive type, exceptions are data, and every
    call that leaves the module (the warehouse driver, the vector store,
    a tool handler) is a function on the state of the outside world that
    yields an [outcome].  The module globals of [server.py] live in a
    record that the server functions thread through a small state and
    exception monad. *)

From Stdlib Require Import String Ascii List ZArith Bool Lia.
Import ListNotations.
Open Scope string_scope.

Set Implicit Arguments.
Set Warnings "-register-all".

(** ** Exceptions and outcomes *)

(** An instance of a subclass of [Exception]; [exn_text] is [str(e)]. *)
Record exn : Type := Exn { exn_class : string; exn_text : string }.

(** What a call can do: return, raise, end the process ([os._exit]), or
    never come back (a blocking call that hangs). *)
Inductive outcome (A : Type) : Type :=
| Ret (a : A)
| Raise (e : exn)
| Exit (code : Z)
| Hang.

Arguments Raise {A} e.
Arguments Exit {A} code.
Arguments Hang {A}.

(** ** Python values *)

(** [PObj getattr] is any object that is none of the builtin shapes; it
    is known through its attributes only.  An attribute is a plain value
    or a callable, and a callable is described by what calling it (with
    the arguments the code passes) yields. *)
Inductive pyval : Type :=
| PNone
| PBool (b : bool)
| PInt (z : Z)
| PFloat (bits : Z)
| PStr (s : string)
| PList (l : list pyval)
| PTuple (l : list pyval)
| PDict (items : list (pyval * pyval))
| PObj (getattr : string -> option pyattr)
with pyattr : Type :=
| AttrValue (v : pyval)
| AttrCallable (call : outcome pyval).

(** ** A state and exception monad *)

Definition M (S A : Type) : Type := S -> outcome A * S.

Definition ret {S A} (a : A) : M S A := fun s => (Ret a, s).

Definition bind {S A B} (m : M S A) (k : A -> M S B) : M S B :=
  fun s =>
    match m s with
    | (Ret a, s') => k a s'
    | (Raise e, s') => (Raise e, s')
    | (Exit c, s') => (Exit c, s')
    | (Hang, s') => (Hang, s')
    end.

Definition raise {S A} (e : exn) : M S A := fun s => (Raise e, s).

(** A call that touches no state. *)
Definition pure {S A} (o : outcome A) : M S A := fun s => (o, s).

(** [try: body / except Exception as e: handler e].  Only a raised
    exception reaches the handler; the state reached when it was raised
    is kept. *)
Definition try_except {S A} (body : M S A) (handler : exn -> M S A) : M S A :=
  fun s =>
    match body s with
    | (Raise e, s') => handler e s'
    | r => r
    end.

Definition get {S} : M S S := fun s => (Ret s, s).
Definition modify {S} (f : S -> S) : M S unit := fun s => (Ret tt, f s).

Declare Scope py_scope.
Delimit Scope py_scope with py.
Notation "x <- m ;; k" := (bind m (fun x => k))
  (at level 61, m at next level, right associativity) : py_scope.
Notation "m ;;; k" := (bind m (fun _ => k))
  (at level 61, right associativity) : py_scope.
Open Scope py_scope.

(** ** Strings

    A Python [str] is held as its UTF-8 encoding: a [string] is the
    sequence of bytes, so equality and concatenation are those of the
    text, and a text is empty exactly when it has no byte. *)

(** [p] is a prefix of [s]: returns what follows it. *)
Fixpoint after_prefix (p s : string) : option string :=
  match p with
  | EmptyString => Some s
  | String a p' =>
      match s with
      | String b s' => if Ascii.eqb a b then after_prefix p' s' else None
      | EmptyString => None
      end
  end.

Definition starts_with (p s : string) : bool :=
  match after_prefix p s with Some _ => true | None => false end.

(** [needle in hay] on strings. *)
Fixpoint contains (needle hay : string) : bool :=
  starts_with needle hay ||
  match hay with
  | EmptyString => false
  | String _ hay' => contains needle hay'
  end.

(** [str.lower] on ASCII letters.  [main] only compares the lowered
    text with [sse] and [streamable-http]; no character outside ASCII
    is lowered to a letter of these two names, so the comparisons come
    out as in Python. *)
Definition lower_ascii (a : ascii) : ascii :=
  let n := nat_of_ascii a in
  if ((65 <=? n) && (n <=? 90))%nat then ascii_of_nat (n + 32) else a.

Fixpoint lower (s : string) : string :=
  match s with
  | EmptyString => EmptyString
  | String a s' => String (lower_ascii a) (lower s')
  end.

(** The white space of [str.strip] and [str.isspace], by the length of
    its encoding.  One byte: U+0009 to U+000D and U+001C to U+0020.  Two
    bytes: U+0085 and U+00A0 ([C2 85], [C2 A0]).  Three bytes: U+1680
    ([E1 9A 80]); U+2000 to U+200A, U+2028, U+2029 and U+202F ([E2 80]
    followed by [80] to [8A], [A8], [A9], [AF]); U+205F ([E2 81 9F]);
    U+3000 ([E3 80 80]). *)
Definition byte_is (n : nat) (a : ascii) : bool := (nat_of_ascii a =? n)%nat.

Definition space1 (a : ascii) : bool :=
  let n := nat_of_ascii a in
  (((9 <=? n) && (n <=? 13)) || ((28 <=? n) && (n <=? 32)))%nat.

Definition space2 (a b : ascii) : bool :=
  byte_is 194 a && (byte_is 133 b || byte_is 160 b).

Definition space3 (a b c : ascii) : bool :=
  let n := nat_of_ascii c in
  (byte_is 225 a && byte_is 154 b && byte_is 128 c)
  || (byte_is 226 a && byte_is 128 b
      && (((128 <=? n) && (n <=? 138)) || (n =? 168) || (n =? 169) || (n =? 175))%nat)
  || (byte_is 226 a && byte_is 129 b && byte_is 159 c)
  || (byte_is 227 a && byte_is 128 b && byte_is 128 c).

(** Every character of [s] is white space. *)
Fixpoint all_space (s : string) : bool :=
  match s with
  | EmptyString => true
  | String a s1 =>
      if space1 a then all_space s1
      else
        match s1 with
        | String b s2 =>
            if space2 a b then all_space s2
            else
              match s2 with
              | String c s3 => space3 a b c && all_space s3
              | EmptyString => false
              end
        | EmptyString => false
        end
  end.

(** [s.lstrip()]: the white-space characters at the head are dropped. *)
Fixpoint lstrip (s : string) : string :=
  match s with
  | EmptyString => EmptyString
  | String a s1 =>
      if space1 a then lstrip s1
      else
        match s1 with
        | String b s2 =>
            if space2 a b then lstrip s2
            else
              match s2 with
              | String c s3 => if space3 a b c then lstrip s3 else s
              | EmptyString => s
              end
        | EmptyString => s
        end
  end.

(** [s.rstrip()]: the text is kept up to the point from which nothing
    but white space follows. *)
Fixpoint rstrip (s : string) : string :=
  match s with
  | EmptyString => EmptyString
  | String a s' => if all_space s then EmptyString else String a (rstrip s')
  end.

(** [s.strip()] *)
Definition strip (s : string) : string := rstrip (lstrip s).

(** ** The response type *)

(** [types.TextContent | types.ImageContent | types.EmbeddedResource];
    the module only ever builds the first. *)
Inductive Content : Type :=
| TextContent (type : string) (text : string)
| ImageContent (data : string) (mimeType : string)
| EmbeddedResource (resource : string).

Definition ResponseType : Type := list Content.

(** ** The interpreter and the outside world *)

(** [json.loads] on text: the parsed value, the [JSONDecodeError] it
    raises on a text that is not JSON, or another exception:
    [RecursionError] on a text nested deeper than the interpreter
    allows, [ValueError] on an integer literal longer than the digit
    limit. *)
Inductive parsed : Type :=
| Parsed (v : pyval)
| JSONDecodeError (msg : string)
| LoadsError (e : exn).

(** What the Python interpreter and its standard library supply.
    [json_loads s] is [json.loads(s)] for a string [s];
    [json_dumps_indent2 v] is [json.dumps(v, indent=2, ensure_ascii=False)]
    and [json_dumps v] is [json.dumps(v)] on a dictionary of strings;
    [py_str v] is [str(v)] for a value that is not a string, which
    raises when the [__str__] of the value does; [py_upper s] is
    [s.upper()]; [py_int s] is [int(s)]; [py_gt a b] is [a > b];
    [py_dict kvs] is [dict(kvs)]. *)
Class Interpreter : Type := {
  json_loads : string -> parsed;
  json_dumps_indent2 : pyval -> outcome string;
  json_dumps : pyval -> string;
  py_str : pyval -> outcome string;
  py_upper : string -> string;
  py_int : string -> outcome Z;
  py_gt : pyval -> pyval -> outcome bool;
  py_dict : list (pyval * pyval) -> outcome pyval
}.

(** What lies outside the two modules: the warehouse handle class
    [td.TDConn] and its cursors, the vector store session and the calls
    that obtain, refresh and query it.  [Ext] is the state of that
    world; every call is a function on it.  [conn_truthy h e] is the
    truth value of [h.conn], the test by which [server.py] decides that
    a stored handle is absent or no longer alive. *)
Class Outside : Type := {
  Ext : Type;
  TDConn : Type;
  Evs : Type;
  Cursor : Type;
  TDConn_new : M Ext TDConn;
  conn_truthy : TDConn -> Ext -> bool;
  TDConn_close : TDConn -> M Ext unit;
  TDConn_cursor : TDConn -> M Ext Cursor;
  cursor_execute : Cursor -> string -> list pyval -> M Ext unit;
  cursor_fetchone : Cursor -> M Ext pyval;
  cursor_exit : Cursor -> M Ext unit;
  get_evs : M Ext Evs;
  refresh_evs : M Ext Evs;
  similarity_search : Evs -> pyval -> pyval -> M Ext pyval;
  teradataml_connection : M Ext unit
}.

(** ** The envelope codec *)

Section Codec.

Context `{Interpreter}.

(** One text item around the text [t] that a call yields. *)
Definition text_content (t : outcome string) : outcome ResponseType :=
  match t with
  | Ret t => Ret [TextContent "text" t]
  | Raise e => Raise e
  | Exit c => Exit c
  | Hang => Hang
  end.

(** The [except] clause names [json.JSONDecodeError] alone: any other
    exception of [json.loads], and an exception of [json.dumps] or of
    [str], leaves the function.  [str] of a string is the string. *)
Definition format_text_response (text : pyval) : outcome ResponseType :=
  match text with
  | PStr s =>
      match json_loads s with
      | Parsed parsed => text_content (json_dumps_indent2 parsed)
      | JSONDecodeError _ => Ret [TextContent "text" s]
      | LoadsError e => Raise e
      end
  | _ => text_content (py_str text)
  end.

Definition format_error_response (error : string) : outcome ResponseType :=
  format_text_response (PStr ("Error: " ++ error)).

(** The error envelope that carries [msg]. *)
Definition error_envelope (msg : string) : ResponseType :=
  [TextContent "text" ("Error: " ++ msg)].

(** [format_text_response] of what a handler call yielded. *)
Definition formatted (o : outcome pyval) : outcome ResponseType :=
  match o with
  | Ret a => format_text_response a
  | Raise e => Raise e
  | Exit c => Exit c
  | Hang => Hang
  end.

(** A fact about [json] that the results below rely on: no JSON
    document begins with the letter E, and [loads] says so at once. *)
Definition json_rejects_E : Prop :=
  forall s, exists msg, json_loads (String "E" s) = JSONDecodeError msg.

End Codec.

Arguments format_text_response : simpl never.
Arguments format_error_response : simpl never.

(** ** server.py: globals, dispatch and lifecycle *)

Section Server.

Context `{Interpreter} `{Outside}.

(** A handler as the dispatcher calls it: [tool(handle, *args, **kwargs)]. *)
Definition db_tool : Type :=
  TDConn -> list pyval -> list (string * pyval) -> M Ext pyval.

Definition vs_tool : Type :=
  Evs -> list pyval -> list (string * pyval) -> M Ext pyval.

(** The calls that leave the process, in the order they are made. *)
Inductive event : Type :=
| EvConnect
| EvDbTool (h : TDConn)
| EvGetEvs
| EvRefresh
| EvVsTool (v : Evs)
| EvTeradataml
| EvClose (h : TDConn).

Definition is_refresh (ev : event) : bool :=
  match ev with EvRefresh => true | _ => false end.

Definition is_vs_call (ev : event) : bool :=
  match ev with EvVsTool _ => true | _ => false end.

(** The module globals, [mcp.settings], the marker file [/tmp/.alive],
    the outside world and the record of calls made into it.  [_evs] is
    [None] while the name is unbound. *)
Record state : Type := mkState {
  shutdown_in_progress : bool;
  _tdconn : TDConn;
  _enableEVS : bool;
  _evs : option Evs;
  settings_host : option string;
  settings_port : option Z;
  settings_path : option string;
  alive_file : bool;
  ext : Ext;
  trace : list event
}.

Definition set_shutdown_in_progress (b : bool) (s : state) : state :=
  mkState b (_tdconn s) (_enableEVS s) (_evs s) (settings_host s)
    (settings_port s) (settings_path s) (alive_file s) (ext s) (trace s).

Definition set_tdconn (h : TDConn) (s : state) : state :=
  mkState (shutdown_in_progress s) h (_enableEVS s) (_evs s) (settings_host s)
    (settings_port s) (settings_path s) (alive_file s) (ext s) (trace s).

Definition set_enableEVS (b : bool) (s : state) : state :=
  mkState (shutdown_in_progress s) (_tdconn s) b (_evs s) (settings_host s)
    (settings_port s) (settings_path s) (alive_file s) (ext s) (trace s).

Definition set_evs (v : Evs) (s : state) : state :=
  mkState (shutdown_in_progress s) (_tdconn s) (_enableEVS s) (Some v)
    (settings_host s) (settings_port s) (settings_path s) (alive_file s)
    (ext s) (trace s).

Definition set_host (h : option string) (s : state) : state :=
  mkState (shutdown_in_progress s) (_tdconn s) (_enableEVS s) (_evs s) h
    (settings_port s) (settings_path s) (alive_file s) (ext s) (trace s).

Definition set_port (p : Z) (s : state) : state :=
  mkState (shutdown_in_progress s) (_tdconn s) (_enableEVS s) (_evs s)
    (settings_host s) (Some p) (settings_path s) (alive_file s) (ext s)
    (trace s).

Definition set_path (p : string) (s : state) : state :=
  mkState (shutdown_in_progress s) (_tdconn s) (_enableEVS s) (_evs s)
    (settings_host s) (settings_port s) (Some p) (alive_file s) (ext s)
    (trace s).

Definition set_alive_file (b : bool) (s : state) : state :=
  mkState (shutdown_in_progress s) (_tdconn s) (_enableEVS s) (_evs s)
    (settings_host s) (settings_port s) (settings_path s) b (ext s) (trace s).

(** A call into the outside world: it is recorded, and it acts on [ext]
    alone. *)
Definition outside {A} (ev : event) (m : M Ext A) : M state A :=
  fun s =>
    let (r, e') := m (ext s) in
    (r, mkState (shutdown_in_progress s) (_tdconn s) (_enableEVS s) (_evs s)
          (settings_host s) (settings_port s) (settings_path s)
          (alive_file s) e' (trace s ++ [ev])).

(** Reading the global [_evs]; an unbound name raises [NameError]. *)
Definition read_evs : M state Evs :=
  fun s =>
    match _evs s with
    | Some v => (Ret v, s)
    | None => (Raise (Exn "NameError" "name '_evs' is not defined"), s)
    end.

Definition execute_db_tool (tool : db_tool) (args : list pyval)
    (kwargs : list (string * pyval)) : M state ResponseType :=
  try_except
    (s <- get ;;
     (if negb (conn_truthy (_tdconn s) (ext s))
      then h <- outside EvConnect TDConn_new ;; modify (set_tdconn h)
      else ret tt) ;;;
     s <- get ;;
     v <- outside (EvDbTool (_tdconn s)) (tool (_tdconn s) args kwargs) ;;
     pure (format_text_response v))
    (fun e => pure (format_error_response (exn_text e))).

(** The auth/expiry signature:
    ["401" in str(e) or "Session expired" in str(e)]. *)
Definition expiry_signature (e : exn) : bool :=
  contains "401" (exn_text e) || contains "Session expired" (exn_text e).

Definition execute_vs_tool (tool : vs_tool) (args : list pyval)
    (kwargs : list (string * pyval)) : M state ResponseType :=
  s <- get ;;
  if _enableEVS s then
    try_except
      (v <- read_evs ;;
       r <- outside (EvVsTool v) (tool v args kwargs) ;;
       pure (format_text_response r))
      (fun e =>
         if expiry_signature e then
           v' <- outside EvRefresh refresh_evs ;;
           modify (set_evs v') ;;;
           try_except
             (v <- read_evs ;;
              r <- outside (EvVsTool v) (tool v args kwargs) ;;
              pure (format_text_response r))
             (fun retry_err =>
                pure (format_error_response
                        ("After refresh, still failed: " ++ exn_text retry_err)))
         else pure (format_error_response (exn_text e)))
  else
    pure (format_error_response
            "Enterprise Vector Store is not available on this server.").

Definition reconnect_to_database : M state ResponseType :=
  try_except
    (h <- outside EvConnect TDConn_new ;;
     modify (set_tdconn h) ;;;
     outside EvTeradataml teradataml_connection ;;;
     pure (format_text_response
             (PStr "Reconnected to Teradata database successfully.")))
    (fun e => pure (format_error_response (exn_text e))).

(** The environment variables the module reads. *)
Record environ : Type := mkEnviron {
  VS_NAME : option string;
  MCP_TRANSPORT : option string;
  MCP_HOST : option string;
  MCP_PORT : option string;
  MCP_PATH : option string
}.

(** [os.getenv(name, default)] *)
Definition getenv (v : option string) (default : string) : string :=
  match v with Some t => t | None => default end.

(** [int(os.getenv(name))]: [int(None)] raises [TypeError]. *)
Definition int_getenv (v : option string) : M state Z :=
  fun s =>
    match v with
    | Some t => (py_int t, s)
    | None =>
        (Raise (Exn "TypeError"
           "int() argument must be a string, a bytes-like object or a real number, not 'NoneType'"),
         s)
    end.

(** The module body, lines 38 to 54: the globals are bound in order, on
    the outside world [e0] and with the marker file present or not
    ([alive0]).  An exception of [td.TDConn()] ends the import. *)
Definition module_init (env : environ) (alive0 : bool) (e0 : Ext)
    : outcome state * Ext :=
  match TDConn_new e0 with
  | (Ret h, e1) =>
      let s1 := mkState false h false None None None None alive0 e1 [EvConnect] in
      let (r, s2) :=
        (if (0 <? String.length (strip (getenv (VS_NAME env) EmptyString)))%nat
         then
           try_except
             (v <- outside EvGetEvs get_evs ;;
              modify (set_evs v) ;;;
              modify (set_enableEVS true))
             (fun _ => ret tt)
         else ret tt) s1 in
      match r with
      | Ret _ => (Ret s2, ext s2)
      | Raise e => (Raise e, ext s2)
      | Exit c => (Exit c, ext s2)
      | Hang => (Hang, ext s2)
      end
  | (Raise e, e1) => (Raise e, e1)
  | (Exit c, e1) => (Exit c, e1)
  | (Hang, e1) => (Hang, e1)
  end.

(** Which [mcp.run_*_async()] the server enters. *)
Inductive transport : Type := Sse | StreamableHttp | Stdio.

(** [main()] up to the point where it awaits the transport loop.  The
    registration of the signal handlers changes nothing in [state]. *)
Definition main (env : environ) : M state transport :=
  let mcp_transport := lower (getenv (MCP_TRANSPORT env) "stdio") in
  if String.eqb mcp_transport "sse" then
    modify (set_host (MCP_HOST env)) ;;;
    port <- int_getenv (MCP_PORT env) ;;
    modify (set_port port) ;;;
    modify (set_alive_file true) ;;;
    ret Sse
  else if String.eqb mcp_transport "streamable-http" then
    modify (set_host (MCP_HOST env)) ;;;
    port <- int_getenv (MCP_PORT env) ;;
    modify (set_port port) ;;;
    modify (set_path (getenv (MCP_PATH env) "/mcp/")) ;;;
    ret StreamableHttp
  else
    ret Stdio.

(** [os._exit(code)] *)
Definition os_exit {A} (code : Z) : M state A := fun s => (Exit code, s).

(** [shutdown(sig)]; [sig] is [None] or a signal number.  The two
    [logger.info] calls change nothing in [state]. *)
Definition shutdown (sig : option Z) : M state unit :=
  s <- get ;;
  (if alive_file s then modify (set_alive_file false) else ret tt) ;;;
  s <- get ;;
  (if shutdown_in_progress s then os_exit 1 else ret tt) ;;;
  s <- get ;;
  outside (EvClose (_tdconn s)) (TDConn_close (_tdconn s)) ;;;
  modify (set_shutdown_in_progress true) ;;;
  os_exit (match sig with Some n => 128 + n | None => 0 end)%Z.

(** ** The process: one worker, one trigger at a time *)

(** What reaches the running server: a tool call, or a shutdown trigger
    (the signal handler runs [shutdown(s)] as a task). *)
Inductive trigger : Type :=
| CallDbTool (tool : db_tool) (args : list pyval) (kwargs : list (string * pyval))
| CallVsTool (tool : vs_tool) (args : list pyval) (kwargs : list (string * pyval))
| CallReconnect
| Shutdown (sig : option Z).

Definition handle (t : trigger) : M state unit :=
  match t with
  | CallDbTool tool args kwargs => execute_db_tool tool args kwargs ;;; ret tt
  | CallVsTool tool args kwargs => execute_vs_tool tool args kwargs ;;; ret tt
  | CallReconnect => reconnect_to_database ;;; ret tt
  | Shutdown sig => shutdown sig
  end.

(** The server process.  All triggers are handled on the one event
    loop: a handler that raises is answered by the framework and the
    loop goes on, [os._exit] ends the process, and a handler blocked in
    a call that never returns blocks the loop, so that no later trigger
    is ever handled. *)
Inductive proc : Type :=
| Live (s : state)
| Terminated (code : Z) (s : state)
| Blocked (s : state).

Definition deliver (p : proc) (t : trigger) : proc :=
  match p with
  | Live s =>
      match handle t s with
      | (Ret _, s') => Live s'
      | (Raise _, s') => Live s'
      | (Exit code, s') => Terminated code s'
      | (Hang, s') => Blocked s'
      end
  | Terminated _ _ => p
  | Blocked _ => p
  end.

Definition run (p : proc) (ts : list trigger) : proc := fold_left deliver ts p.


End Server.

(** ** evs_tools.py: the builtins it relies on *)

Section Builtins.

Context {S : Type} `{Interpreter}.

(** A computation that leaves the state as it found it. *)
Definition stateless {A} (m : M S A) : Prop := forall s, snd (m s) = s.

Definition TypeError {A} (msg : string) : M S A := raise (Exn "TypeError" msg).

(** [type(v).__name__] *)
Definition type_name (v : pyval) : string :=
  match v with
  | PNone => "NoneType"
  | PBool _ => "bool"
  | PInt _ => "int"
  | PFloat _ => "float"
  | PStr _ => "str"
  | PList _ => "list"
  | PTuple _ => "tuple"
  | PDict _ => "dict"
  | PObj _ => "object"
  end.

(** [bool(v)]; the two zeros of a float are the bit patterns [0] and
    [2^63]. *)
Definition py_truthy (v : pyval) : bool :=
  match v with
  | PNone => false
  | PBool b => b
  | PInt z => negb (z =? 0)%Z
  | PFloat bits => negb ((bits =? 0) || (bits =? 2 ^ 63))%Z
  | PStr s => negb (String.eqb s EmptyString)
  | PList l | PTuple l => match l with [] => false | _ :: _ => true end
  | PDict items => match items with [] => false | _ :: _ => true end
  | PObj _ => true
  end.

Fixpoint chars (s : string) : list pyval :=
  match s with
  | EmptyString => []
  | String a s' => PStr (String a EmptyString) :: chars s'
  end.

(** The items that [for x in v] visits. *)
Definition py_iter (v : pyval) : M S (list pyval) :=
  match v with
  | PList l | PTuple l => ret l
  | PDict items => ret (map fst items)
  | PStr s => ret (chars s)
  | _ => TypeError ("'" ++ type_name v ++ "' object is not iterable")
  end.

Fixpoint dict_get_str (items : list (pyval * pyval)) (k : string) : option pyval :=
  match items with
  | [] => None
  | (PStr k', v) :: rest => if String.eqb k' k then Some v else dict_get_str rest k
  | _ :: rest => dict_get_str rest k
  end.

(** [v[k]] for a string [k]. *)
Definition getitem_str (v : pyval) (k : string) : M S pyval :=
  match v with
  | PDict items =>
      match dict_get_str items k with
      | Some x => ret x
      | None => raise (Exn "KeyError" ("'" ++ k ++ "'"))
      end
  | PList _ => TypeError "list indices must be integers or slices, not str"
  | PTuple _ => TypeError "tuple indices must be integers or slices, not str"
  | PStr _ => TypeError "string indices must be integers, not 'str'"
  | _ => TypeError ("'" ++ type_name v ++ "' object is not subscriptable")
  end.

(** The keys that are equal to the integer [0]. *)
Definition is_zero_key (k : pyval) : bool :=
  match k with
  | PInt z => (z =? 0)%Z
  | PBool b => negb b
  | PFloat bits => ((bits =? 0) || (bits =? 2 ^ 63))%Z
  | _ => false
  end.

Fixpoint dict_get_0 (items : list (pyval * pyval)) : option pyval :=
  match items with
  | [] => None
  | (k, v) :: rest => if is_zero_key k then Some v else dict_get_0 rest
  end.

(** [v[0]] *)
Definition getitem_0 (v : pyval) : M S pyval :=
  match v with
  | PList (x :: _) => ret x
  | PList [] => raise (Exn "IndexError" "list index out of range")
  | PTuple (x :: _) => ret x
  | PTuple [] => raise (Exn "IndexError" "tuple index out of range")
  | PStr (String a _) => ret (PStr (String a EmptyString))
  | PStr EmptyString => raise (Exn "IndexError" "string index out of range")
  | PDict items =>
      match dict_get_0 items with
      | Some x => ret x
      | None => raise (Exn "KeyError" "0")
      end
  | _ => TypeError ("'" ++ type_name v ++ "' object is not subscriptable")
  end.

(** [max(iterable, key=key)]: the first item whose key no later key
    exceeds. *)
Fixpoint max_loop (key : pyval -> M S pyval) (maxitem maxval : pyval)
    (rest : list pyval) : M S pyval :=
  match rest with
  | [] => ret maxitem
  | item :: rest' =>
      val <- key item ;;
      gt <- pure (py_gt val maxval) ;;
      if gt : bool then max_loop key item val rest'
      else max_loop key maxitem maxval rest'
  end.

Definition py_max (iterable : pyval) (key : pyval -> M S pyval) : M S pyval :=
  items <- py_iter iterable ;;
  match items with
  | [] => raise (Exn "ValueError" "max() arg is an empty sequence")
  | item :: rest => val <- key item ;; max_loop key item val rest
  end.

(** [getattr(obj, name)] when [hasattr(obj, name)]; of the builtin
    shapes only [dict] has one of the attributes this module asks for
    (the method [items]). *)
Definition py_getattr (obj : pyval) (name : string) : option pyattr :=
  match obj with
  | PObj getattr => getattr name
  | PDict items =>
      if String.eqb name "items"
      then Some (AttrCallable
                   (Ret (PList (map (fun kv => PTuple [fst kv; snd kv]) items))))
      else None
  | _ => None
  end.

(** [a()] *)
Definition call (a : pyattr) : M S pyval :=
  match a with
  | AttrCallable r => pure r
  | AttrValue v => TypeError ("'" ++ type_name v ++ "' object is not callable")
  end.

(** [obj.name()] *)
Definition call_method (obj : pyval) (name : string) : M S pyval :=
  match py_getattr obj name with
  | Some a => call a
  | None =>
      raise (Exn "AttributeError"
               ("'" ++ type_name obj ++ "' object has no attribute '" ++ name ++ "'"))
  end.

(** [json.loads(v)] on any value. *)
Definition loads (v : pyval) : M S pyval :=
  match v with
  | PStr s =>
      match json_loads s with
      | Parsed x => ret x
      | JSONDecodeError msg => raise (Exn "JSONDecodeError" msg)
      | LoadsError e => raise e
      end
  | _ =>
      TypeError ("the JSON object must be str, bytes or bytearray, not "
                 ++ type_name v)
  end.

(** [[f(x) for x in xs]] *)
Fixpoint comprehension {A B} (f : A -> M S B) (xs : list A) : M S (list B) :=
  match xs with
  | [] => ret []
  | x :: xs' => y <- f x ;; ys <- comprehension f xs' ;; ret (y :: ys)
  end.

(** The first of the attributes [names] that [obj] has and whose value
    is a list. *)
Fixpoint first_list_attr (obj : pyval) (names : list string)
    : option (list pyval) :=
  match names with
  | [] => None
  | name :: names' =>
      match py_getattr obj name with
      | Some (AttrValue (PList val)) => Some val
      | _ => first_list_attr obj names'
      end
  end.

(** [_materialize], steps 4 to 7 and the final [raise]. *)
Definition materialize_rest (obj : pyval) : M S pyval :=
  match first_list_attr obj ["similar_objects"; "records"; "items"; "data"] with
  | Some val => ret (PList val)
  | None =>
  match py_getattr obj "to_pandas" with
  | Some to_pandas => df <- call to_pandas ;; call_method df "to_dict"
  | None =>
  match py_getattr obj "to_json" with
  | Some to_json => text <- call to_json ;; loads text
  | None =>
  match py_getattr obj "fetchall", py_getattr obj "description" with
  | Some fetchall, Some description =>
      rows <- call fetchall ;;
      cs <- match description with
            | AttrValue d => py_iter d
            | AttrCallable _ => TypeError "'method' object is not iterable"
            end ;;
      cols <- comprehension getitem_0 cs ;;
      rs <- py_iter rows ;;
      dicts <- comprehension
                 (fun row => r <- py_iter row ;; pure (py_dict (combine cols r)))
                 rs ;;
      ret (PList dicts)
  | _, _ =>
      TypeError ("Unable to materialize similarity_search result, type=<class '"
                 ++ type_name obj ++ "'>")
  end end end end.

(** [_materialize(obj)]: steps 1 to 3, with the recursion of step 3 on
    the value of [collect] or [result]. *)
Fixpoint _materialize (obj : pyval) : M S pyval :=
  match obj with
  | PStr _ => loads obj
  | PList l | PTuple l => ret (PList l)
  | PObj getattr =>
      match getattr "collect" with
      | Some (AttrValue val) => _materialize val
      | Some (AttrCallable (Ret val)) => _materialize val
      | Some (AttrCallable r) => pure r
      | None =>
          match getattr "result" with
          | Some (AttrValue val) => _materialize val
          | Some (AttrCallable (Ret val)) => _materialize val
          | Some (AttrCallable r) => pure r
          | None => materialize_rest obj
          end
      end
  | _ => materialize_rest obj
  end.

End Builtins.

(** ** evs_tools.py: the best-answer tool *)

Section EvsTools.

Context `{Interpreter} `{Outside}.

(** [with conn.cursor() as cur: body]: the cursor is released on the
    way out, whether [body] returned or raised. *)
Definition with_cursor {A} (conn : TDConn) (body : Cursor -> M Ext A) : M Ext A :=
  cur <- TDConn_cursor conn ;;
  fun e =>
    match body cur e with
    | (Ret a, e') => (cursor_exit cur ;;; ret a) e'
    | (Raise x, e') => (cursor_exit cur ;;; raise x) e'
    | r => r
    end.

Definition dquote : string := String (ascii_of_nat 34) EmptyString.

(** [format(v)] inside an f-string. *)
Definition py_format (v : pyval) : outcome string :=
  match v with PStr s => Ret s | _ => py_str v end.

(** The [try] block of the tool.  [similarity_search] is called with
    [return_type="json"] and [output_columns=["kb_id", "score"]]. *)
Definition getAnswerOnly_try (conn : TDConn) (vs : Evs)
    (question top_k faq_tbl : pyval) : M Ext pyval :=
  raw <- similarity_search vs question top_k ;;
  records <- _materialize raw ;;
  if negb (py_truthy records) then ret (PStr "(No similar question found)")
  else
    best <- py_max records (fun r => getitem_str r "score") ;;
    kb_id <- getitem_str best "kb_id" ;;
    faq <- pure (py_format faq_tbl) ;;
    let sql := "SELECT answer FROM " ++ dquote ++ faq ++ dquote
               ++ " WHERE kb_id = ?" in
    row <- with_cursor conn
             (fun cur => cursor_execute cur sql [kb_id] ;;; cursor_fetchone cur) ;;
    answer <- (if py_truthy row then getitem_0 row
               else ret (PStr "(No answer for this kb_id)")) ;;
    ret answer.

(** The JSON text the [except] block returns. *)
Definition error_json (e : exn) : pyval :=
  PStr (json_dumps (PDict [(PStr "status", PStr "error");
                           (PStr "message", PStr (exn_text e))])).

Definition handle_evs_similarity_search_getAnswerOnly (conn : TDConn)
    (question top_k faq_tbl : pyval) : M Ext pyval :=
  vs <- get_evs ;;
  try_except
    (getAnswerOnly_try conn vs question top_k faq_tbl)
    (fun e => ret (error_json e)).

(** The statement the tool runs against the FAQ table [faq]. *)
Definition answer_query (conn : TDConn) (faq : string) (kb_id : pyval)
    : M Ext pyval :=
  with_cursor conn
    (fun cur =>
       cursor_execute cur
         ("SELECT answer FROM " ++ dquote ++ faq ++ dquote
          ++ " WHERE kb_id = ?") [kb_id] ;;;
       cursor_fetchone cur).

End EvsTools.

(** ** A predicate used to state results *)

Section SessionBound.

Context `{Outside}.


End SessionBound.

(** ** Calling a handler: how [*args] and [**kwargs] meet its parameters *)

Section Calling.

Context {S : Type}.

Fixpoint lookup_kw (name : string) (kwargs : list (string * pyval)) : option pyval :=
  match kwargs with
  | [] => None
  | (k, v) :: rest => if String.eqb k name then Some v else lookup_kw name rest
  end.

(** The value a parameter receives: the positional argument at its
    place, else the keyword argument of its name, else its default.
    Both at once, or none of the three, is a [TypeError]. *)
Definition bind_param (fname name : string) (positional : option pyval)
    (kwargs : list (string * pyval)) (default : option pyval) : M S pyval :=
  match positional, lookup_kw name kwargs with
  | Some _, Some _ =>
      raise (Exn "TypeError"
               (fname ++ "() got multiple values for argument '" ++ name ++ "'"))
  | Some v, None => ret v
  | None, Some v => ret v
  | None, None =>
      match default with
      | Some d => ret d
      | None =>
          raise (Exn "TypeError"
                   (fname ++ "() missing 1 required positional argument: '"
                    ++ name ++ "'"))
      end
  end.

(** The first parameter is always given by position, so a keyword of
    its name is one value too many. *)
Definition first_param_given (fname name : string)
    (kwargs : list (string * pyval)) : M S unit :=
  match lookup_kw name kwargs with
  | Some _ =>
      raise (Exn "TypeError"
               (fname ++ "() got multiple values for argument '" ++ name ++ "'"))
  | None => ret tt
  end.

End Calling.

(** ** evs_tools.py: the similarity-search tool *)

(** What [create_response] and [handle_evs_similarity_search] take from
    outside: the type tests of [_serialize_td], [float(obj)],
    [json.dumps(obj, default=f)], and [similarity_search] called with
    [return_type="json"] alone. *)
Class Searching `{Outside} : Type := {
  is_date : pyval -> bool;
  is_Decimal : pyval -> bool;
  py_float : pyval -> outcome pyval;
  json_dumps_default : (pyval -> outcome pyval) -> pyval -> outcome string;
  similarity_search_json : Evs -> pyval -> pyval -> M Ext pyval
}.

Section SimilaritySearch.

Context `{Interpreter} `{Searching}.






(** [handle_evs_similarity_search_getAnswerOnly(conn, question, top_k=2,
    faq_tbl="FAQ_DEMO", *args, **kwargs)] as a handler. *)
Definition getAnswerOnly_tool : db_tool :=
  fun conn args kwargs =>
    first_param_given "handle_evs_similarity_search_getAnswerOnly" "conn" kwargs ;;;
    question <- bind_param "handle_evs_similarity_search_getAnswerOnly" "question"
                  (nth_error args 0) kwargs None ;;
    top_k <- bind_param "handle_evs_similarity_search_getAnswerOnly" "top_k"
               (nth_error args 1) kwargs (Some (PInt 2)) ;;
    faq_tbl <- bind_param "handle_evs_similarity_search_getAnswerOnly" "faq_tbl"
                 (nth_error args 2) kwargs (Some (PStr "FAQ_DEMO")) ;;
    handle_evs_similarity_search_getAnswerOnly conn question top_k faq_tbl.


Definition vector_store_best_answer (question top_k : pyval)
    : M state ResponseType :=
  execute_db_tool getAnswerOnly_tool []
    [("question", question); ("top_k", top_k)].

End SimilaritySearch.

(** ** server.py: the feature store configuration *)

(** [FeatureStoreConfig]: every field is [Optional[str]] and starts as
    [None]. *)
Record FeatureStoreConfig : Type := mkFeatureStoreConfig {
  data_domain : option string;
  entity : option string;
  db_name : option string;
  feature_catalog : option string;
  process_catalog : option string;
  dataset_catalog : option string
}.

Definition fs_config_init : FeatureStoreConfig :=
  mkFeatureStoreConfig None None None None None None.

(** What the feature store tools take from [tdfs4ds] and [teradataml]. *)
Class FeatureStoreLib `{Outside} : Type := {
  tdfs4ds_connect : string -> M Ext pyval;
  FEATURE_CATALOG_NAME_VIEW : string;
  PROCESS_CATALOG_NAME_VIEW : string;
  tdml_execute_sql : string -> M Ext pyval
}.

Section FeatureStore.

Context `{Interpreter} `{FeatureStoreLib}.

(** The global [fs_config] and the outside world. *)
Record fs_state : Type := mkFsState {
  fs_config : FeatureStoreConfig;
  fs_ext : Ext
}.

Definition fs_outside {A} (m : M Ext A) : M fs_state A :=
  fun s => let (r, e') := m (fs_ext s) in (r, mkFsState (fs_config s) e').

Definition fs_update (f : FeatureStoreConfig -> FeatureStoreConfig)
    : M fs_state unit :=
  modify (fun s => mkFsState (f (fs_config s)) (fs_ext s)).

Definition set_data_domain (v : option string) (c : FeatureStoreConfig) :=
  mkFeatureStoreConfig v (entity c) (db_name c) (feature_catalog c)
    (process_catalog c) (dataset_catalog c).

Definition set_entity (v : option string) (c : FeatureStoreConfig) :=
  mkFeatureStoreConfig (data_domain c) v (db_name c) (feature_catalog c)
    (process_catalog c) (dataset_catalog c).

Definition set_db_name (v : option string) (c : FeatureStoreConfig) :=
  mkFeatureStoreConfig (data_domain c) (entity c) v (feature_catalog c)
    (process_catalog c) (dataset_catalog c).

Definition set_feature_catalog (v : option string) (c : FeatureStoreConfig) :=
  mkFeatureStoreConfig (data_domain c) (entity c) (db_name c) v
    (process_catalog c) (dataset_catalog c).

Definition set_process_catalog (v : option string) (c : FeatureStoreConfig) :=
  mkFeatureStoreConfig (data_domain c) (entity c) (db_name c) (feature_catalog c)
    v (dataset_catalog c).

Definition set_dataset_catalog (v : option string) (c : FeatureStoreConfig) :=
  mkFeatureStoreConfig (data_domain c) (entity c) (db_name c) (feature_catalog c)
    (process_catalog c) v.

(** The truth value of an [Optional[str]]. *)
Definition opt_truthy (v : option string) : bool :=
  match v with
  | Some s => negb (String.eqb s EmptyString)
  | None => false
  end.

(** An [Optional[str]] inside an f-string. *)
Definition opt_format (v : option string) : string :=
  match v with Some s => s | None => "None" end.

(** [v.upper()]: [None] has no such attribute. *)
Definition opt_upper (v : option string) : M fs_state string :=
  match v with
  | Some s => ret (py_upper s)
  | None =>
      raise (Exn "AttributeError" "'NoneType' object has no attribute 'upper'")
  end.

(** [fs_config.db_name and fs_config.db_name.upper() == db_name.upper()] *)
Definition same_database (c : FeatureStoreConfig) (db : string) : bool :=
  match db_name c with
  | Some old => negb (String.eqb old EmptyString) && String.eqb (py_upper old) (py_upper db)
  | None => false
  end.

(** [tdml.execute_sql(sql).fetchall()[0][0] > 0] *)
Definition count_positive (sql : string) : M fs_state bool :=
  result <- fs_outside (tdml_execute_sql sql) ;;
  rows <- call_method result "fetchall" ;;
  row <- getitem_0 rows ;;
  n <- getitem_0 row ;;
  pure (py_gt n (PInt 0)).

(** [fs_config.dict(exclude_none=True)] *)
Definition config_dict (c : FeatureStoreConfig) : pyval :=
  let field (name : string) (v : option string) :=
    match v with Some s => [(PStr name, PStr s)] | None => [] end in
  PDict (field "data_domain" (data_domain c) ++ field "entity" (entity c)
         ++ field "db_name" (db_name c)
         ++ field "feature_catalog" (feature_catalog c)
         ++ field "process_catalog" (process_catalog c)
         ++ field "dataset_catalog" (dataset_catalog c))%list.

Definition fs_setFeatureStoreConfig (data_domain_ db_name_ entity_ : option string)
    : M fs_state ResponseType :=
  (match db_name_ with
   | Some db =>
       if opt_truthy db_name_ then
         connected <- fs_outside (tdfs4ds_connect db) ;;
         if py_truthy connected then
           s <- get ;;
           (if negb (same_database (fs_config s) db)
            then fs_update (set_data_domain None) else ret tt) ;;;
           fs_update (set_db_name (Some db)) ;;;
           fs_update (set_feature_catalog
                        (Some (db ++ "." ++ FEATURE_CATALOG_NAME_VIEW))) ;;;
           fs_update (set_process_catalog
                        (Some (db ++ "." ++ PROCESS_CATALOG_NAME_VIEW))) ;;;
           fs_update (set_dataset_catalog (Some (db ++ ".FS_V_FS_DATASET_CATALOG")))
         else ret tt
       else ret tt
   | None => ret tt
   end) ;;;
  s <- get ;;
  (match db_name (fs_config s), data_domain_ with
   | Some _, Some dd =>
       positive <- count_positive
                     ("SEL count(*) AS N FROM "
                      ++ opt_format (feature_catalog (fs_config s))
                      ++ " WHERE UPPER(data_domain) = '" ++ py_upper dd ++ "'") ;;
       if positive : bool then fs_update (set_data_domain (Some dd))
       else fs_update (set_data_domain None)
   | _, _ => ret tt
   end) ;;;
  s <- get ;;
  (match db_name (fs_config s), data_domain (fs_config s), entity_ with
   | Some _, Some _, Some ent =>
       dd_upper <- opt_upper data_domain_ ;;
       positive <- count_positive
                     ("SEL count(*) AS N FROM "
                      ++ opt_format (feature_catalog (fs_config s))
                      ++ " WHERE UPPER(data_domain) = '" ++ dd_upper
                      ++ "' AND ENTITY_NAME = '" ++ py_upper ent ++ "'") ;;
       if positive : bool then fs_update (set_entity (Some ent)) else ret tt
   | _, _, _ => ret tt
   end) ;;;
  s <- get ;;
  text <- pure (py_str (config_dict (fs_config s))) ;;
  pure (format_text_response (PStr ("Feature store config updated: " ++ text))).

(** The three catalog names are those of the configured database. *)
Definition catalogs_follow (c : FeatureStoreConfig) : Prop :=
  forall db, db_name c = Some db ->
    feature_catalog c = Some (db ++ "." ++ FEATURE_CATALOG_NAME_VIEW) /\
    process_catalog c = Some (db ++ "." ++ PROCESS_CATALOG_NAME_VIEW) /\
    dataset_catalog c = Some (db ++ ".FS_V_FS_DATASET_CATALOG").

(** [m] keeps the property [P] of the configuration, on every way out. *)
Definition config_kept (P : FeatureStoreConfig -> Prop) {A} (m : M fs_state A)
    : Prop :=
  forall s, P (fs_config s) -> P (fs_config (snd (m s))).

(** The state after a sequence of calls of [fs_setFeatureStoreConfig],
    each with its three arguments, whatever each call returns. *)
Definition fs_calls (calls : list (option string * option string * option string))
    (s : fs_state) : fs_state :=
  fold_left
    (fun s call =>
       let '(data_domain_, db_name_, entity_) := call in
       snd (fs_setFeatureStoreConfig data_domain_ db_name_ entity_ s))
    calls s.

End FeatureStore.

(** ** server.py: custom tools and prompts loaded at startup *)

(** [s.endswith(suffix)] *)
Definition ends_with (suffix s : string) : bool :=
  let n := String.length s in
  let m := String.length suffix in
  ((m <=? n)%nat && String.eqb (substring (n - m) m s) suffix).

(** What [make_custom_query_tool] and [make_custom_prompt] build: a
    closure over the text of its record. *)
Inductive dynamic : Type :=
| DynamicTool (sql_text : pyval) (desc : pyval)
| DynamicPrompt (prompt : pyval) (desc : pyval).

(** The part of the module that the loader writes: the entries it puts
    into [globals()], the latest first, and the registrations it makes
    with [mcp.tool] and [mcp.prompt], in the order it makes them. *)
Record namespace : Type := mkNamespace {
  dyn_globals : list (pyval * dynamic);
  mcp_registered : list (string * dynamic)
}.



Section CustomTools.

Context `{Interpreter}.

(** Lines 748 to 753.  [listing] is [os.listdir()], each name with what
    opening the file and [yaml.safe_load] yield; only the files whose
    name ends in [_tools.yaml] are opened.  The state is [query_defs]. *)
Fixpoint read_query_defs (listing : list (string * outcome pyval))
    : M (list pyval) unit :=
  match listing with
  | [] => ret tt
  | (file, content) :: rest =>
      (if ends_with "_tools.yaml" file then
         loaded <- pure content ;;
         items <- py_iter loaded ;;
         modify (fun query_defs => (query_defs ++ items)%list)
       else ret tt) ;;;
      read_query_defs rest
  end.

(** The records a file of the listing contributes when it is read and
    holds a list. *)
Definition file_records (entry : string * outcome pyval) : list pyval :=
  if ends_with "_tools.yaml" (fst entry) then
    match snd entry with
    | Ret (PList l) => l
    | _ => []
    end
  else [].

(** A file that is not read, or that holds a list. *)
Definition file_loads (entry : string * outcome pyval) : Prop :=
  ends_with "_tools.yaml" (fst entry) = true ->
  exists l, snd entry = Ret (PList l).

(** [v == s] for a string literal [s]. *)
Definition equals_str (v : pyval) (s : string) : bool :=
  match v with PStr t => String.eqb t s | _ => false end.

(** [q.get(k, default)] *)
Definition dict_get (q : pyval) (k : string) (default : pyval) : M namespace pyval :=
  match q with
  | PDict items =>
      ret (match dict_get_str items k with Some v => v | None => default end)
  | _ =>
      raise (Exn "AttributeError"
               ("'" ++ type_name q ++ "' object has no attribute 'get'"))
  end.


(** [fn.__name__ = name], then the registration under that name. *)
Definition register (name : pyval) (d : dynamic) : M namespace dynamic :=
  match name with
  | PStr n =>
      modify (fun ns => mkNamespace (dyn_globals ns)
                          (mcp_registered ns ++ [(n, d)])%list) ;;;
      ret d
  | _ => TypeError "__name__ must be set to a string object"
  end.

Definition make_custom_prompt (prompt prompt_name desc : pyval)
    : M namespace dynamic :=
  register prompt_name (DynamicPrompt prompt desc).

Definition make_custom_query_tool (sql_text tool_name desc : pyval)
    : M namespace dynamic :=
  register tool_name (DynamicTool sql_text desc).

(** [globals()[name] = fn] *)
Definition bind_global (name : pyval) (fn : dynamic) : M namespace unit :=
  modify (fun ns => mkNamespace ((name, fn) :: dyn_globals ns) (mcp_registered ns)).

(** One turn of the loop of lines 771 to 781. *)
Definition load_record (q : pyval) : M namespace unit :=
  type <- getitem_str q "type" ;;
  if equals_str type "tool" then
    sql <- getitem_str q "sql" ;;
    name <- getitem_str q "name" ;;
    desc <- dict_get q "description" (PStr EmptyString) ;;
    fn <- make_custom_query_tool sql name desc ;;
    name <- getitem_str q "name" ;;
    bind_global name fn
  else if equals_str type "prompt" then
    prompt <- getitem_str q "prompt" ;;
    name <- getitem_str q "name" ;;
    desc <- dict_get q "description" (PStr EmptyString) ;;
    fn <- make_custom_prompt prompt name desc ;;
    name <- getitem_str q "name" ;;
    bind_global name fn
  else ret tt.

Fixpoint load_custom (query_defs : list pyval) : M namespace unit :=
  match query_defs with
  | [] => ret tt
  | q :: rest => load_record q ;;; load_custom rest
  end.

End CustomTools.


(** ** A simulated interpreter and outside world

    Concrete instances on which the definitions above run: a [json]
    module for the three literals, which gives up on a text that opens
    [nesting_limit] arrays or more, and an outside world whose calls
    behave as a script says.  Handles, sessions and cursors are
    numbered. *)

Module Sim.

Definition json_isspace (a : ascii) : bool :=
  let n := nat_of_ascii a in
  ((n =? 32) || (n =? 9) || (n =? 10) || (n =? 13))%nat.

Fixpoint skip_ws (s : string) : string :=
  match s with
  | EmptyString => EmptyString
  | String a s' => if json_isspace a then skip_ws s' else s
  end.

(** [lit], then nothing but white space. *)
Definition literal (lit s : string) : bool :=
  match after_prefix lit s with
  | Some rest => String.eqb (skip_ws rest) EmptyString
  | None => false
  end.

(** The number of [[] that open [s], added to [n]. *)
Fixpoint open_brackets (s : string) (n : N) : N :=
  match s with
  | String a s' =>
      if Ascii.eqb a "["%char then open_brackets s' (N.succ n) else n
  | EmptyString => n
  end.

Definition nesting_limit : N := 100000.

(** [n] times the character [[]. *)
Definition brackets (n : N) : string :=
  N.iter n (String "["%char) EmptyString.

Definition loads_literal (s : string) : parsed :=
  let t := skip_ws s in
  if literal "null" t then Parsed PNone
  else if literal "true" t then Parsed (PBool true)
  else if literal "false" t then Parsed (PBool false)
  else if (nesting_limit <=? open_brackets t 0)%N then
    LoadsError
      (Exn "RecursionError"
         "maximum recursion depth exceeded while decoding a JSON array from a unicode string")
  else JSONDecodeError "Expecting value".

(** What the simulated interpreter takes for [str.upper]: the ASCII
    letters are raised. *)
Definition upper_ascii (a : ascii) : ascii :=
  let n := nat_of_ascii a in
  if ((97 <=? n) && (n <=? 122))%nat then ascii_of_nat (n - 32) else a.

Fixpoint upper (s : string) : string :=
  match s with
  | EmptyString => EmptyString
  | String a s' => String (upper_ascii a) (upper s')
  end.

Definition dumps_literal (v : pyval) : string :=
  match v with
  | PBool true => "true"
  | PBool false => "false"
  | _ => "null"
  end.

Definition str_literal (v : pyval) : string :=
  match v with
  | PNone => "None"
  | PBool true => "True"
  | PBool false => "False"
  | PStr s => s
  | _ => "<object>"
  end.

Definition gt_int (a b : pyval) : outcome bool :=
  match a, b with
  | PInt x, PInt y => Ret (y <? x)%Z
  | _, _ => Raise (Exn "TypeError" "'>' not supported")
  end.

Definition quote : ascii := ascii_of_nat 34.
Definition backslash : ascii := ascii_of_nat 92.

Fixpoint escape (s : string) : string :=
  match s with
  | EmptyString => EmptyString
  | String a s' =>
      if Ascii.eqb a quote || Ascii.eqb a backslash
      then String backslash (String a (escape s'))
      else String a (escape s')
  end.

Definition dumps_scalar (v : pyval) : string :=
  match v with
  | PStr s => String quote (escape s) ++ String quote EmptyString
  | _ => dumps_literal v
  end.

Fixpoint dumps_items (items : list (pyval * pyval)) : string :=
  match items with
  | [] => EmptyString
  | [(k, v)] => dumps_scalar k ++ ": " ++ dumps_scalar v
  | (k, v) :: rest => dumps_scalar k ++ ": " ++ dumps_scalar v ++ ", " ++ dumps_items rest
  end.

(** [json.dumps] on scalars and on flat dictionaries. *)
Definition dumps_flat (v : pyval) : string :=
  match v with
  | PDict items => "{" ++ dumps_items items ++ "}"
  | _ => dumps_scalar v
  end.

#[export] Instance interpreter : Interpreter := {|
  json_loads := loads_literal;
  json_dumps_indent2 := fun v => Ret (dumps_literal v);
  json_dumps := dumps_flat;
  py_str := fun v => Ret (str_literal v);
  py_upper := upper;
  py_int := fun _ => Ret 8001%Z;
  py_gt := gt_int;
  py_dict := fun kvs => Ret (PDict kvs)
|}.

(** How a scripted call behaves. *)
Inductive behaviour : Type :=
| Returns
| Raises (msg : string)
| Hangs.

Record world : Type := mkWorld {
  connect : behaviour;
  next_handle : nat;
  alive : list nat;
  close : behaviour;
  evs : behaviour;
  refresh : behaviour;
  generation : nat;
  search : pyval;
  fetch : pyval
}.

Definition act {A} (b : behaviour) (a : A) (w' w : world) : outcome A * world :=
  match b with
  | Returns => (Ret a, w')
  | Raises msg => (Raise (Exn "Exception" msg), w)
  | Hangs => (Hang, w)
  end.

Definition connected (w : world) : world :=
  mkWorld (connect w) (S (next_handle w)) (next_handle w :: alive w) (close w)
    (evs w) (refresh w) (generation w) (search w) (fetch w).

Definition closed (h : nat) (w : world) : world :=
  mkWorld (connect w) (next_handle w)
    (filter (fun x => negb (Nat.eqb x h)) (alive w)) (close w)
    (evs w) (refresh w) (generation w) (search w) (fetch w).

Definition refreshed (w : world) : world :=
  mkWorld (connect w) (next_handle w) (alive w) (close w)
    (evs w) (refresh w) (S (generation w)) (search w) (fetch w).

#[export] Instance outside : Outside := {|
  Ext := world;
  TDConn := nat;
  Evs := nat;
  Cursor := nat;
  TDConn_new := fun w => act (connect w) (next_handle w) (connected w) w;
  conn_truthy := fun h w => existsb (Nat.eqb h) (alive w);
  TDConn_close := fun h w => act (close w) tt (closed h w) w;
  TDConn_cursor := fun h w =>
    if existsb (Nat.eqb h) (alive w) then (Ret h, w)
    else (Raise (Exn "Exception" "No connection to database"), w);
  cursor_execute := fun _ _ _ w => (Ret tt, w);
  cursor_fetchone := fun _ w => (Ret (fetch w), w);
  cursor_exit := fun _ w => (Ret tt, w);
  get_evs := fun w => act (evs w) (generation w) w w;
  refresh_evs := fun w => act (refresh w) (S (generation w)) (refreshed w) w;
  similarity_search := fun _ _ _ w => (Ret (search w), w);
  teradataml_connection := fun w => (Ret tt, w)
|}.

(** A warehouse tool that answers [pong]. *)
Definition ping : db_tool :=
  fun _ _ _ w => (Ret (PStr "pong"), w).

(** A warehouse tool that fails. *)
Definition broken : db_tool :=
  fun _ _ _ w => (Raise (Exn "OperationalError" "socket closed"), w).

(** A vector-store tool that is refused on every session older than the
    current generation. *)
Definition search_tool : vs_tool :=
  fun v _ _ w =>
    if (v <? generation w)%nat
    then (Raise (Exn "HTTPError" "401 Unauthorized"), w)
    else (Ret (PStr "hit"), w).

(** A vector-store tool that is refused on every session. *)
Definition refused_tool : vs_tool :=
  fun _ _ _ w => (Raise (Exn "HTTPError" "Session expired"), w).

(** A world in which every call returns; the vector store holds two
    matches and the FAQ table one answer. *)
Definition calm : world :=
  mkWorld Returns 0 [] Returns Returns Returns 0
    (PList [PDict [(PStr "kb_id", PInt 7); (PStr "score", PInt 3)];
            PDict [(PStr "kb_id", PInt 9); (PStr "score", PInt 5)]])
    (PList [PStr "Restart the service."]).

Definition with_connect (b : behaviour) (w : world) : world :=
  mkWorld b (next_handle w) (alive w) (close w) (evs w) (refresh w)
    (generation w) (search w) (fetch w).

Definition with_close (b : behaviour) (w : world) : world :=
  mkWorld (connect w) (next_handle w) (alive w) b (evs w) (refresh w)
    (generation w) (search w) (fetch w).

Definition with_evs (b : behaviour) (w : world) : world :=
  mkWorld (connect w) (next_handle w) (alive w) (close w) b (refresh w)
    (generation w) (search w) (fetch w).

Definition with_refresh (b : behaviour) (w : world) : world :=
  mkWorld (connect w) (next_handle w) (alive w) (close w) (evs w) b
    (generation w) (search w) (fetch w).

(** The session in use has expired on the server side. *)
Definition expired (w : world) : world := refreshed w.

Definition env_vs (transport : string) : environ :=
  mkEnviron (Some "faq_store") (Some transport) (Some "0.0.0.0") (Some "8001") None.

(** The server while it serves: handle [0] is stored and alive, the
    vector store is enabled with session [0]. *)
Definition serving : state :=
  mkState false 0 true (Some 0) None None None false (connected calm) [].

Definition on_world (w : world) (s : state) : state :=
  mkState (shutdown_in_progress s) (_tdconn s) (_enableEVS s) (_evs s)
    (settings_host s) (settings_port s) (settings_path s) (alive_file s)
    w (trace s).

(** The warehouse has dropped the stored connection. *)
Definition stale : state := on_world (closed 0 (connected calm)) serving.

(** The session has expired and the vector store cannot be reached. *)
Definition unreachable : state :=
  on_world (with_refresh (Raises "connection refused") (expired (ext serving)))
    serving.

End Sim.

(** ** A second simulated world

    The world of [Sim] with a vector store whose searches behave as a
    script says, and a feature store: the databases that hold one, and
    the count every catalog query returns. *)

Module Sim2.

Record world : Type := mkWorld {
  base : Sim.world;
  search_mode : Sim.behaviour;
  fs_databases : list string;
  fs_count : Z
}.

Definition lift {A} (m : M Sim.world A) : M world A :=
  fun w =>
    let (r, b) := m (base w) in
    (r, mkWorld b (search_mode w) (fs_databases w) (fs_count w)).

#[export] Instance outside : Outside := {|
  Ext := world;
  TDConn := nat;
  Evs := nat;
  Cursor := nat;
  TDConn_new := lift (@TDConn_new Sim.outside);
  conn_truthy := fun h w => @conn_truthy Sim.outside h (base w);
  TDConn_close := fun h => lift (@TDConn_close Sim.outside h);
  TDConn_cursor := fun h => lift (@TDConn_cursor Sim.outside h);
  cursor_execute := fun c sql ps => lift (@cursor_execute Sim.outside c sql ps);
  cursor_fetchone := fun c => lift (@cursor_fetchone Sim.outside c);
  cursor_exit := fun c => lift (@cursor_exit Sim.outside c);
  get_evs := lift (@get_evs Sim.outside);
  refresh_evs := lift (@refresh_evs Sim.outside);
  similarity_search := fun v q k => lift (@similarity_search Sim.outside v q k);
  teradataml_connection := lift (@teradataml_connection Sim.outside)
|}.

#[export] Instance searching : Searching := {|
  is_date := fun _ => false;
  is_Decimal := fun _ => false;
  py_float := fun _ => Raise (Exn "TypeError" "float() argument must be a string or a real number");
  json_dumps_default := fun _ v => Ret (Sim.dumps_flat v);
  similarity_search_json := fun _ _ _ w =>
    match search_mode w with
    | Sim.Returns => (Ret (PStr "hits"), w)
    | Sim.Raises msg => (Raise (Exn "HTTPError" msg), w)
    | Sim.Hangs => (Hang, w)
    end
|}.

(** The result object of a count query. *)
Definition count_result (n : Z) : pyval :=
  PObj (fun name =>
          if String.eqb name "fetchall"
          then Some (AttrCallable (Ret (PList [PList [PInt n]])))
          else None).

#[export] Instance feature_store : FeatureStoreLib := {|
  tdfs4ds_connect := fun db w => (Ret (PBool (existsb (String.eqb db) (fs_databases w))), w);
  FEATURE_CATALOG_NAME_VIEW := "FS_V_FEATURE_CATALOG";
  PROCESS_CATALOG_NAME_VIEW := "FS_V_PROCESS_CATALOG";
  tdml_execute_sql := fun _ w => (Ret (count_result (fs_count w)), w)
|}.

(** Handle [0] is connected, the vector store answers, and the
    databases [sales] and [hr] hold a feature store with matching rows. *)
Definition calm : world :=
  mkWorld (Sim.connected Sim.calm) Sim.Returns ["sales"; "hr"] 3.


Definition with_base (b : Sim.world) (w : world) : world :=
  mkWorld b (search_mode w) (fs_databases w) (fs_count w).

Definition with_count (n : Z) (w : world) : world :=
  mkWorld (base w) (search_mode w) (fs_databases w) n.

(** The server while it serves on world [w]. *)
Definition serving (w : world) : state :=
  mkState false 0 true (Some 0) None None None false w [].

(** The same with the vector store disabled at startup. *)
Definition disabled (w : world) : state :=
  mkState false 0 false None None None None false w [].

(** A feature store configured for database [sales] and domain [retail]. *)
Definition configured : FeatureStoreConfig :=
  mkFeatureStoreConfig (Some "retail") (Some "customer") (Some "sales")
    (Some "sales.FS_V_FEATURE_CATALOG") (Some "sales.FS_V_PROCESS_CATALOG")
    (Some "sales.FS_V_FS_DATASET_CATALOG").

(** Records of a definition file. *)
Definition tool_record (name sql : string) : pyval :=
  PDict [(PStr "type", PStr "tool"); (PStr "name", PStr name);
         (PStr "sql", PStr sql)].

Definition prompt_record (name prompt desc : string) : pyval :=
  PDict [(PStr "type", PStr "prompt"); (PStr "name", PStr name);
         (PStr "prompt", PStr prompt); (PStr "description", PStr desc)].

End Sim2.

(** * Results *)

(** ** The simulated [json] rejects a text that begins with E *)

Lemma sim_rejects_E : @json_rejects_E Sim.interpreter.
Proof. intros s. exists "Expecting value". reflexivity. Qed.

(** ** The envelope codec *)

Section CodecFacts.

Context `{Interpreter}.

Lemma format_text_response_plain (s msg : string) :
  json_loads s = JSONDecodeError msg ->
  format_text_response (PStr s) = Ret [TextContent "text" s].
Proof. intros Hs. unfold format_text_response. now rewrite Hs. Qed.

Lemma format_error_response_text (error : string) :
  json_rejects_E ->
  format_error_response error = Ret [TextContent "text" ("Error: " ++ error)].
Proof.
  intros HE. unfold format_error_response.
  destruct (HE ("rror: " ++ error)) as [msg Hmsg].
  exact (format_text_response_plain _ Hmsg).
Qed.

Lemma after_prefix_app (p s : string) : after_prefix p (p ++ s) = Some s.
Proof.
  induction p as [|a p IH]; simpl; [reflexivity|].
  now rewrite Ascii.eqb_refl.
Qed.

Lemma text_content_ret (o : outcome string) (r : ResponseType) :
  text_content o = Ret r -> exists t, o = Ret t /\ r = [TextContent "text" t].
Proof. destruct o; simpl; intros [= <-] || discriminate. eauto. Qed.

Lemma text_content_raise (o : outcome string) (e : exn) :
  text_content o = Raise e <-> o = Raise e.
Proof. destruct o; simpl; split; congruence. Qed.

(** C6: a string that does not parse is wrapped as it is only when
    [json.loads] says so with [JSONDecodeError].  When [json.loads]
    raises another exception on it, [format_text_response] returns no
    payload: the exception leaves the function.  A string that parses
    is answered with what [json.dumps] makes of the parsed value. *)
Theorem format_text_response_unparsed (s : string) :
  (forall e, json_loads s = LoadsError e ->
     format_text_response (PStr s) = Raise e) /\
  (forall msg, json_loads s = JSONDecodeError msg ->
     format_text_response (PStr s) = Ret [TextContent "text" s]) /\
  (forall v, json_loads s = Parsed v ->
     format_text_response (PStr s) = text_content (json_dumps_indent2 v)).
Proof.
  unfold format_text_response.
  split; [|split]; intros x Hx; now rewrite Hx.
Qed.

(** C9: whenever [format_text_response] returns, it returns exactly one
    text item, and [format_error_response] returns one text item whose
    text is the prefix [Error: ] followed by the message.  But the
    function does not always return.  It raises [e] exactly when the
    value is a string on which [json.loads] raises [e] and [e] is not a
    [JSONDecodeError], or a string that parses to a value on which
    [json.dumps] raises [e], or not a string and [str] raises [e] on
    it. *)
Theorem format_text_response_raises :
  (forall text r,
     format_text_response text = Ret r -> exists t, r = [TextContent "text" t]) /\
  (forall text e,
     format_text_response text = Raise e <->
     (exists s, text = PStr s /\
        (json_loads s = LoadsError e \/
         exists v, json_loads s = Parsed v /\ json_dumps_indent2 v = Raise e)) \/
     ((forall s, text <> PStr s) /\ py_str text = Raise e)) /\
  (json_rejects_E ->
   forall error, exists t,
     format_error_response error = Ret [TextContent "text" t] /\
     after_prefix "Error: " t = Some error).
Proof.
  split; [|split].
  - intros text r Hr.
    assert (Hother : forall o, text_content o = Ret r ->
                               exists t, r = [TextContent "text" t]).
    { intros o Ho. destruct (text_content_ret _ Ho) as [t [_ ->]]. eauto. }
    destruct text; unfold format_text_response in Hr; eauto.
    destruct (json_loads s); eauto; [|discriminate].
    injection Hr as <-. eauto.
  - intros text e. split.
    + intros He.
      destruct text; unfold format_text_response in He;
        try (right; split; [discriminate | now apply text_content_raise]).
      left. exists s. split; [reflexivity|].
      destruct (json_loads s) as [v|msg|x]; [|discriminate|].
      * right. exists v. split; [reflexivity | now apply text_content_raise].
      * left. congruence.
    + intros [[s [-> [Hs|[v [Hv Hd]]]]]|[Hns Hstr]].
      * unfold format_text_response. now rewrite Hs.
      * unfold format_text_response. rewrite Hv. now apply text_content_raise.
      * destruct text; unfold format_text_response;
          try (now apply text_content_raise).
        now contradiction (Hns s).
  - intros HE error. exists ("Error: " ++ error).
    split; [now apply format_error_response_text | apply after_prefix_app].
Qed.

End CodecFacts.

Lemma format_text_response_unparsed_witness :
  Sim.loads_literal (Sim.brackets 100000)
  = LoadsError
      (Exn "RecursionError"
         "maximum recursion depth exceeded while decoding a JSON array from a unicode string") /\
  @format_text_response Sim.interpreter (PStr (Sim.brackets 100000))
  = Raise
      (Exn "RecursionError"
         "maximum recursion depth exceeded while decoding a JSON array from a unicode string") /\
  @format_text_response Sim.interpreter (PStr "pong") = Ret [TextContent "text" "pong"].
Proof.
  assert (Hdeep : Sim.loads_literal (Sim.brackets 100000)
                  = LoadsError
                      (Exn "RecursionError"
                         "maximum recursion depth exceeded while decoding a JSON array from a unicode string")).
  { vm_compute. reflexivity. }
  split; [exact Hdeep|]. split.
  - exact (proj1 (@format_text_response_unparsed Sim.interpreter
                    (Sim.brackets 100000)) _ Hdeep).
  - exact (proj1 (proj2 (@format_text_response_unparsed Sim.interpreter "pong"))
             "Expecting value" eq_refl).
Defined.

Lemma format_text_response_raises_witness :
  @json_rejects_E Sim.interpreter /\
  (exists e,
     @format_text_response Sim.interpreter
       (PStr (String.append " " (Sim.brackets 100000))) = Raise e) /\
  exists t,
    @format_error_response Sim.interpreter "socket closed"
    = Ret [TextContent "text" t] /\
    after_prefix "Error: " t = Some "socket closed".
Proof.
  split; [exact sim_rejects_E|]. split.
  - eexists.
    apply (proj2 (proj1 (proj2 (@format_text_response_raises Sim.interpreter))
                    (PStr (String.append " " (Sim.brackets 100000))) _)).
    left. eexists. split; [reflexivity|]. left. vm_compute. reflexivity.
  - exact (proj2 (proj2 (@format_text_response_raises Sim.interpreter))
             sim_rejects_E "socket closed").
Defined.

(** ** The warehouse dispatcher *)

Ltac unfold_m :=
  unfold try_except, bind, ret, raise, pure, get, modify, outside, read_evs,
    os_exit in *.

Section DispatchFacts.

Context `{Interpreter} `{Outside}.

(** C2: before the handler runs, [execute_db_tool] tests the stored
    handle.  If the test says it is absent or not alive, a new handle
    is connected and stored in place of the old one, and the handler
    runs on the new handle; if the test passes, the handler runs on the
    stored handle and no connection is made.  So the call that follows
    a reconnect, with the new handle still passing the test, reuses it
    without connecting again. *)
Theorem execute_db_tool_acquires (tool : db_tool) (args : list pyval)
    (kwargs : list (string * pyval)) (s : state) :
  (forall h e1,
     conn_truthy (_tdconn s) (ext s) = false ->
     TDConn_new (ext s) = (Ret h, e1) ->
     let s' := snd (execute_db_tool tool args kwargs s) in
     _tdconn s' = h /\
     trace s' = (trace s ++ [EvConnect; EvDbTool h])%list /\
     ext s' = snd (tool h args kwargs e1)) /\
  (conn_truthy (_tdconn s) (ext s) = true ->
     let s' := snd (execute_db_tool tool args kwargs s) in
     _tdconn s' = _tdconn s /\
     trace s' = (trace s ++ [EvDbTool (_tdconn s)])%list /\
     ext s' = snd (tool (_tdconn s) args kwargs (ext s))) /\
  (forall h e1 tool2 args2 kwargs2,
     conn_truthy (_tdconn s) (ext s) = false ->
     TDConn_new (ext s) = (Ret h, e1) ->
     let s' := snd (execute_db_tool tool args kwargs s) in
     conn_truthy h (ext s') = true ->
     let s'' := snd (execute_db_tool tool2 args2 kwargs2 s') in
     _tdconn s'' = h /\ trace s'' = (trace s' ++ [EvDbTool h])%list).
Proof.
  assert (Hfresh : forall h e1,
     conn_truthy (_tdconn s) (ext s) = false ->
     TDConn_new (ext s) = (Ret h, e1) ->
     let s' := snd (execute_db_tool tool args kwargs s) in
     _tdconn s' = h /\
     trace s' = (trace s ++ [EvConnect; EvDbTool h])%list /\
     ext s' = snd (tool h args kwargs e1)).
  { intros h e1 Hdead Hnew. unfold execute_db_tool. unfold_m. simpl.
    rewrite Hdead. simpl. rewrite Hnew. simpl.
    destruct (tool h args kwargs e1) as [[v|x|c|] e2]; simpl;
      try destruct (format_text_response v); simpl;
      rewrite <- app_assoc; auto. }
  assert (Hlive : forall s0 tool0 args0 kwargs0,
     conn_truthy (_tdconn s0) (ext s0) = true ->
     let s' := snd (execute_db_tool tool0 args0 kwargs0 s0) in
     _tdconn s' = _tdconn s0 /\
     trace s' = (trace s0 ++ [EvDbTool (_tdconn s0)])%list /\
     ext s' = snd (tool0 (_tdconn s0) args0 kwargs0 (ext s0))).
  { intros s0 tool0 args0 kwargs0 Hlive. unfold execute_db_tool. unfold_m. simpl.
    rewrite Hlive. simpl.
    destruct (tool0 (_tdconn s0) args0 kwargs0 (ext s0)) as [[v|x|c|] e2]; simpl;
      try destruct (format_text_response v); simpl; auto. }
  split; [exact Hfresh|]. split; [apply Hlive|].
  intros h e1 tool2 args2 kwargs2 Hdead Hnew s' Hstill s''.
  destruct (Hfresh h e1 Hdead Hnew) as [Hh _]. fold s' in Hh.
  subst s''. rewrite <- Hh in Hstill |- *.
  destruct (Hlive s' tool2 args2 kwargs2 Hstill) as [H1 [H2 _]].
  split; assumption.
Qed.

(** C3: no exception leaves [execute_db_tool].  An exception raised by
    the handler, on the stored handle or on a fresh one, and an
    exception raised by the reconnect, is caught and returned as the
    error envelope that carries its text. *)
Theorem execute_db_tool_catches (tool : db_tool) (args : list pyval)
    (kwargs : list (string * pyval)) (s : state) :
  json_rejects_E ->
  (forall e, fst (execute_db_tool tool args kwargs s) <> Raise e) /\
  (forall e e1,
     conn_truthy (_tdconn s) (ext s) = true ->
     tool (_tdconn s) args kwargs (ext s) = (Raise e, e1) ->
     fst (execute_db_tool tool args kwargs s) = Ret (error_envelope (exn_text e))) /\
  (forall e e1,
     conn_truthy (_tdconn s) (ext s) = false ->
     TDConn_new (ext s) = (Raise e, e1) ->
     fst (execute_db_tool tool args kwargs s) = Ret (error_envelope (exn_text e))) /\
  (forall h e1 e e2,
     conn_truthy (_tdconn s) (ext s) = false ->
     TDConn_new (ext s) = (Ret h, e1) ->
     tool h args kwargs e1 = (Raise e, e2) ->
     fst (execute_db_tool tool args kwargs s) = Ret (error_envelope (exn_text e))).
Proof.
  intros HE. unfold error_envelope. repeat split.
  - intros e. unfold execute_db_tool. unfold_m. simpl.
    destruct (conn_truthy (_tdconn s) (ext s)); simpl.
    + destruct (tool (_tdconn s) args kwargs (ext s)) as [[v|x|c|] e2];
        simpl; try destruct (format_text_response v); simpl;
        rewrite ?format_error_response_text by assumption; discriminate.
    + destruct (TDConn_new (ext s)) as [[h|x|c|] e1]; simpl;
        rewrite ?format_error_response_text by assumption; try discriminate.
      destruct (tool h args kwargs e1) as [[v|x|c|] e2]; simpl;
        try destruct (format_text_response v); simpl;
        rewrite ?format_error_response_text by assumption; discriminate.
  - intros e e1 Hlive Htool. unfold execute_db_tool. unfold_m. simpl.
    rewrite Hlive. simpl. rewrite Htool. simpl.
    now rewrite format_error_response_text.
  - intros e e1 Hdead Hnew. unfold execute_db_tool. unfold_m. simpl.
    rewrite Hdead. simpl. rewrite Hnew. simpl.
    now rewrite format_error_response_text.
  - intros h e1 e e2 Hdead Hnew Htool. unfold execute_db_tool. unfold_m. simpl.
    rewrite Hdead. simpl. rewrite Hnew. simpl. rewrite Htool. simpl.
    now rewrite format_error_response_text.
Qed.

End DispatchFacts.

(** ** The vector-session handle *)

Section VectorSessionFacts.

Context `{Interpreter} `{Outside}.

Lemma execute_vs_tool_success (tool : vs_tool) (args : list pyval)
    (kwargs : list (string * pyval)) (s : state) (v : Evs) (r : pyval) (e1 : Ext) :
  _enableEVS s = true -> _evs s = Some v ->
  forall resp : ResponseType,
  tool v args kwargs (ext s) = (Ret r, e1) ->
  format_text_response r = Ret resp ->
  fst (execute_vs_tool tool args kwargs s) = Ret resp /\
  trace (snd (execute_vs_tool tool args kwargs s)) = (trace s ++ [EvVsTool v])%list.
Proof.
  intros Hen Hv resp Htool Hresp. unfold execute_vs_tool. unfold_m. simpl.
  rewrite Hen, Hv. simpl. rewrite Htool. simpl. rewrite Hresp. auto.
Qed.

(** X24: when the first call fails without the auth/expiry signature,
    [execute_vs_tool] makes no refresh and no retry: the one call is
    all it does, and the failure comes back as an error envelope. *)
Lemma execute_vs_tool_other_failure (tool : vs_tool) (args : list pyval)
    (kwargs : list (string * pyval)) (s : state) (v : Evs) (x : exn) (e1 : Ext) :
  json_rejects_E ->
  _enableEVS s = true -> _evs s = Some v ->
  tool v args kwargs (ext s) = (Raise x, e1) ->
  expiry_signature x = false ->
  fst (execute_vs_tool tool args kwargs s) = Ret (error_envelope (exn_text x)) /\
  trace (snd (execute_vs_tool tool args kwargs s)) = (trace s ++ [EvVsTool v])%list.
Proof.
  intros HE Hen Hv Htool Hsig.
  unfold execute_vs_tool. unfold_m. simpl.
  rewrite Hen, Hv. simpl. rewrite Htool. simpl. rewrite Hsig. simpl.
  now rewrite format_error_response_text.
Qed.

(** X23: when the first call fails with the auth/expiry signature and
    the refresh returns, [execute_vs_tool] refreshes once, stores the
    new session and retries once on it.  The formatted result of the
    retry is returned; a retry that raises, in the tool or in the
    formatting of its result, with the signature or without, makes no
    further refresh and comes back as an error envelope. *)
Lemma execute_vs_tool_refresh_once (tool : vs_tool) (args : list pyval)
    (kwargs : list (string * pyval)) (s : state) (v v' : Evs) (x : exn)
    (e1 e2 : Ext) :
  json_rejects_E ->
  _enableEVS s = true -> _evs s = Some v ->
  tool v args kwargs (ext s) = (Raise x, e1) ->
  expiry_signature x = true ->
  refresh_evs e1 = (Ret v', e2) ->
  let r := execute_vs_tool tool args kwargs s in
  trace (snd r) = (trace s ++ [EvVsTool v; EvRefresh; EvVsTool v'])%list /\
  _evs (snd r) = Some v' /\
  fst r = match formatted (fst (tool v' args kwargs e2)) with
          | Raise y =>
              Ret (error_envelope ("After refresh, still failed: " ++ exn_text y))
          | response => response
          end.
Proof.
  intros HE Hen Hv Htool Hsig Href.
  unfold execute_vs_tool. unfold_m. simpl.
  rewrite Hen, Hv. simpl. rewrite Htool. simpl. rewrite Hsig. simpl.
  rewrite Href. simpl.
  destruct (tool v' args kwargs e2) as [[a|y|c|] e3]; simpl;
    try destruct (format_text_response a); simpl;
    rewrite <- !app_assoc; simpl;
    rewrite ?format_error_response_text by assumption;
    repeat split; reflexivity.
Qed.

(** C1: when the first call fails with the auth/expiry signature and the
    refresh itself raises, [execute_vs_tool] has made one refresh
    attempt and no retry, and the exception of the refresh leaves the
    function: on this path the error boundary does not hold. *)
Theorem execute_vs_tool_refresh_failure_escapes (tool : vs_tool)
    (args : list pyval) (kwargs : list (string * pyval)) (s : state)
    (v : Evs) (x y : exn) (e1 e2 : Ext) :
  _enableEVS s = true -> _evs s = Some v ->
  tool v args kwargs (ext s) = (Raise x, e1) ->
  expiry_signature x = true ->
  refresh_evs e1 = (Raise y, e2) ->
  fst (execute_vs_tool tool args kwargs s) = Raise y /\
  trace (snd (execute_vs_tool tool args kwargs s))
  = (trace s ++ [EvVsTool v; EvRefresh])%list.
Proof.
  intros Hen Hv Htool Hsig Href.
  unfold execute_vs_tool. unfold_m. simpl.
  rewrite Hen, Hv. simpl. rewrite Htool. simpl. rewrite Hsig. simpl.
  rewrite Href. simpl. rewrite <- app_assoc. auto.
Qed.


Ltac destruct_outcomes :=
  repeat match goal with
    | |- context [match ?x with _ => _ end] =>
        lazymatch x with
        | context [match _ with _ => _ end] => fail
        | _ => idtac
        end;
        first [destruct x as [[?|?|?|] ?] eqn:? | destruct x eqn:?]; simpl
    end.

(** X25: whatever the tool and the refresh do, one call of
    [execute_vs_tool] makes at most one refresh and at most two calls
    of the tool. *)
Lemma execute_vs_tool_bounded (tool : vs_tool) (args : list pyval)
    (kwargs : list (string * pyval)) (s : state) :
  exists evs,
    trace (snd (execute_vs_tool tool args kwargs s)) = (trace s ++ evs)%list /\
    (length (filter is_refresh evs) <= 1)%nat /\
    (length (filter is_vs_call evs) <= 2)%nat.
Proof.
  unfold execute_vs_tool. unfold_m. simpl. destruct_outcomes;
    repeat rewrite <- app_assoc; simpl;
    try (exists []; rewrite app_nil_r; simpl; split; [reflexivity | lia]);
    eexists; (split; [reflexivity|]); simpl; lia.
Qed.





End VectorSessionFacts.

(** ** The lifecycle manager *)

Section LifecycleFacts.

Context `{Interpreter} `{Outside}.

Lemma shutdown_forced (sig : option Z) (s : state) :
  shutdown_in_progress s = true ->
  fst (shutdown sig s) = Exit 1 /\ trace (snd (shutdown sig s)) = trace s.
Proof.
  intros Hflag. unfold shutdown. unfold_m. simpl.
  destruct (alive_file s); simpl; rewrite Hflag; simpl; auto.
Qed.

(** X26: on every way out of [shutdown], the forced exit and a close
    that raises or hangs included, the marker file is gone. *)
Lemma shutdown_removes_marker (sig : option Z) (s : state) :
  alive_file (snd (shutdown sig s)) = false.
Proof.
  unfold shutdown. unfold_m. simpl.
  destruct (alive_file s) eqn:Halive; simpl;
    destruct (shutdown_in_progress s); simpl; try assumption; try reflexivity;
    destruct (TDConn_close (_tdconn s) (ext s)) as [[[]|x|c|] e1]; simpl;
    try assumption; reflexivity.
Qed.

(** C7: when no shutdown is in progress and the handle closes,
    [shutdown] ends the process with code 0 for no signal and with
    128 plus the signal number for a signal; when a shutdown is in
    progress it ends the process with code 1. *)
Theorem shutdown_exit_code (s : state) :
  (forall e1,
     shutdown_in_progress s = false ->
     TDConn_close (_tdconn s) (ext s) = (Ret tt, e1) ->
     fst (shutdown None s) = Exit 0 /\
     forall n, fst (shutdown (Some n) s) = Exit (128 + n)) /\
  (shutdown_in_progress s = true ->
     forall sig, fst (shutdown sig s) = Exit 1).
Proof.
  split.
  - intros e1 Hflag Hclose. split; [|intros n];
      unfold shutdown; unfold_m; simpl;
      destruct (alive_file s); simpl; rewrite Hflag; simpl;
      rewrite Hclose; reflexivity.
  - intros Hflag sig. now apply shutdown_forced.
Qed.

Lemma run_blocked (s : state) (ts : list trigger) :
  run (Blocked s) ts = Blocked s.
Proof. unfold run. induction ts as [|t ts IH]; [reflexivity | exact IH]. Qed.

(** C5: [shutdown_in_progress] is set only after [_tdconn.close()] has
    returned.  When the close of the first shutdown hangs, the process
    is blocked with the flag still false, and it stays blocked whatever
    triggers follow, further shutdown triggers included: the hung
    teardown blocks exit.  Were [shutdown] entered again in that state,
    it would not force the exit either: it would call [close] again. *)
Theorem hung_teardown_blocks_exit (s : state) (sig : option Z) (e1 : Ext) :
  shutdown_in_progress s = false ->
  TDConn_close (_tdconn s) (ext s) = (Hang, e1) ->
  forall ts, exists s',
    run (Live s) (Shutdown sig :: ts) = Blocked s' /\
    shutdown_in_progress s' = false /\
    trace s' = (trace s ++ [EvClose (_tdconn s)])%list /\
    forall sig2,
      trace (snd (shutdown sig2 s')) = (trace s' ++ [EvClose (_tdconn s')])%list.
Proof.
  intros Hflag Hclose ts.
  assert (Hd : exists s',
             deliver (Live s) (Shutdown sig) = Blocked s' /\
             shutdown_in_progress s' = false /\
             trace s' = (trace s ++ [EvClose (_tdconn s)])%list).
  { unfold deliver, handle, shutdown. unfold_m. simpl.
    destruct (alive_file s); simpl; rewrite Hflag; simpl; rewrite Hclose; simpl;
      eexists; (split; [reflexivity|]); simpl; auto. }
  destruct Hd as [s' [Hd [Hoff Htrace]]]. exists s'.
  split; [|split; [exact Hoff|split; [exact Htrace|]]].
  - change (run (Live s) (Shutdown sig :: ts))
      with (run (deliver (Live s) (Shutdown sig)) ts).
    rewrite Hd. apply run_blocked.
  - intros sig2. unfold shutdown. unfold_m. simpl.
    destruct (alive_file s'); simpl; rewrite Hoff; simpl;
      destruct (TDConn_close (_tdconn s') (ext s')) as [[[]|x|c|] e2];
      reflexivity.
Qed.

Lemma main_sse_creates_marker (env : environ) (s : state) (t : string) (port : Z) :
  lower (getenv (MCP_TRANSPORT env) "stdio") = "sse" ->
  MCP_PORT env = Some t -> py_int t = Ret port ->
  fst (main env s) = Ret Sse /\ alive_file (snd (main env s)) = true.
Proof.
  intros Hmode Hport Hint. unfold main, int_getenv. rewrite Hmode, Hport.
  unfold_m. simpl. rewrite Hint. simpl. auto.
Qed.

(** C8: started with the transport [streamable-http], [main] reaches the
    transport loop without touching the marker file: none is created. *)
Theorem main_streamable_http_creates_no_marker (env : environ) (s : state)
    (t : string) (port : Z) :
  lower (getenv (MCP_TRANSPORT env) "stdio") = "streamable-http" ->
  MCP_PORT env = Some t -> py_int t = Ret port ->
  fst (main env s) = Ret StreamableHttp /\
  alive_file (snd (main env s)) = alive_file s.
Proof.
  intros Hmode Hport Hint. unfold main, int_getenv. rewrite Hmode, Hport.
  unfold_m. simpl. rewrite Hint. simpl. auto.
Qed.

End LifecycleFacts.

(** ** The builtins change no state *)

Create HintDb stateless.

Section BuiltinFacts.

Context {S : Type} `{Interpreter}.

Lemma stateless_ret {A} (a : A) : stateless (ret a : M S A).
Proof. intros s. reflexivity. Qed.

Lemma stateless_raise {A} (e : exn) : stateless (@raise S A e).
Proof. intros s. reflexivity. Qed.

Lemma stateless_pure {A} (o : outcome A) : stateless (pure o : M S A).
Proof. intros s. reflexivity. Qed.

Lemma stateless_bind {A B} (m : M S A) (k : A -> M S B) :
  stateless m -> (forall a, stateless (k a)) -> stateless (bind m k).
Proof.
  intros Hm Hk s. unfold bind. specialize (Hm s).
  destruct (m s) as [[a|x|c|] s1]; simpl in *; subst; auto. apply Hk.
Qed.

Hint Resolve stateless_ret stateless_raise stateless_pure : stateless.

Lemma stateless_py_iter (v : pyval) : stateless (S:=S) (py_iter v).
Proof. destruct v; simpl; unfold TypeError; auto with stateless. Qed.

Lemma stateless_getitem_str (v : pyval) (k : string) : stateless (S:=S) (getitem_str v k).
Proof.
  destruct v; simpl; unfold TypeError; auto with stateless.
  destruct (dict_get_str items k); auto with stateless.
Qed.

Lemma stateless_getitem_0 (v : pyval) : stateless (S:=S) (getitem_0 v).
Proof.
  destruct v as [| | | |s|l|l|items|g]; simpl; unfold TypeError; auto with stateless.
  - destruct s; auto with stateless.
  - destruct l; auto with stateless.
  - destruct l; auto with stateless.
  - destruct (dict_get_0 items); auto with stateless.
Qed.

Lemma stateless_call (a : pyattr) : stateless (S:=S) (call a).
Proof. destruct a; simpl; unfold TypeError; auto with stateless. Qed.

Lemma stateless_call_method (obj : pyval) (name : string) :
  stateless (S:=S) (call_method obj name).
Proof.
  unfold call_method. destruct (py_getattr obj name);
    auto using stateless_call with stateless.
Qed.

Lemma stateless_loads (v : pyval) : stateless (S:=S) (loads v).
Proof.
  destruct v; simpl; unfold TypeError; auto with stateless.
  destruct (json_loads s); auto with stateless.
Qed.

Lemma stateless_comprehension {A B} (f : A -> M S B) (xs : list A) :
  (forall x, stateless (f x)) -> stateless (S:=S) (comprehension f xs).
Proof.
  intros Hf. induction xs as [|x xs IH]; simpl; auto with stateless.
  apply stateless_bind; [apply Hf|]. intros y.
  apply stateless_bind; [exact IH|]. auto with stateless.
Qed.

Lemma stateless_max_loop (key : pyval -> M S pyval) (rest : list pyval) :
  (forall r, stateless (key r)) ->
  forall maxitem maxval, stateless (S:=S) (max_loop key maxitem maxval rest).
Proof.
  intros Hkey. induction rest as [|item rest IH]; intros maxitem maxval; simpl;
    auto with stateless.
  apply stateless_bind; [apply Hkey|]. intros val.
  apply stateless_bind; [auto with stateless|]. intros [|]; apply IH.
Qed.

Lemma stateless_py_max (iterable : pyval) (key : pyval -> M S pyval) :
  (forall r, stateless (key r)) -> stateless (S:=S) (py_max iterable key).
Proof.
  intros Hkey. unfold py_max.
  apply stateless_bind; [apply stateless_py_iter|]. intros [|item rest];
    auto with stateless.
  apply stateless_bind; [apply Hkey|]. intros val.
  now apply stateless_max_loop.
Qed.

Lemma stateless_materialize_rest (obj : pyval) : stateless (S:=S) (materialize_rest obj).
Proof.
  unfold materialize_rest.
  destruct (first_list_attr obj _); auto with stateless.
  destruct (py_getattr obj "to_pandas").
  { apply stateless_bind; [apply stateless_call|]. intros df.
    apply stateless_call_method. }
  destruct (py_getattr obj "to_json").
  { apply stateless_bind; [apply stateless_call|]. intros t.
    apply stateless_loads. }
  destruct (py_getattr obj "fetchall"); [|unfold TypeError; auto with stateless].
  destruct (py_getattr obj "description") as [description|];
    [|unfold TypeError; auto with stateless].
  apply stateless_bind; [apply stateless_call|]. intros rows.
  apply stateless_bind.
  { destruct description; [apply stateless_py_iter | unfold TypeError; auto with stateless]. }
  intros cs. apply stateless_bind.
  { apply stateless_comprehension. apply stateless_getitem_0. }
  intros cols. apply stateless_bind; [apply stateless_py_iter|]. intros rs.
  apply stateless_bind; [|auto with stateless].
  apply stateless_comprehension. intros row.
  apply stateless_bind; [apply stateless_py_iter|]. auto with stateless.
Qed.

Lemma stateless_materialize (obj : pyval) : stateless (S:=S) (_materialize obj).
Proof.
  revert obj. fix IH 1. intros obj.
  destruct obj as [| | | |s|l|l|items|g]; simpl;
    try apply stateless_materialize_rest; auto with stateless.
  - apply (stateless_loads (PStr s)).
  - destruct (g "collect") as [[val|[val|x|c|]]|].
    + apply IH.
    + apply IH.
    + auto with stateless.
    + auto with stateless.
    + auto with stateless.
    + destruct (g "result") as [[val|[val|x|c|]]|];
        try apply IH; auto with stateless.
      apply stateless_materialize_rest.
Qed.

End BuiltinFacts.

(** ** The best-answer tool *)

Section EvsToolsFacts.

Context `{Interpreter} `{Outside}.

Lemma stateless_run {A} (m : M Ext A) (e : Ext) :
  stateless m -> m e = (fst (m e), e).
Proof. intros Hm. rewrite <- (Hm e) at 3. now destruct (m e). Qed.

Lemma getAnswerOnly_try_no_records (conn : TDConn) (vs : Evs)
    (question top_k faq_tbl raw records : pyval) (e1 e2 : Ext) :
  similarity_search vs question top_k e1 = (Ret raw, e2) ->
  fst (_materialize raw e2) = Ret records ->
  py_truthy records = false ->
  getAnswerOnly_try conn vs question top_k faq_tbl e1
  = (Ret (PStr "(No similar question found)"), e2).
Proof.
  intros Hsearch Hmat Hnone. unfold getAnswerOnly_try.
  unfold bind at 1. rewrite Hsearch. cbv beta match.
  unfold bind at 1.
  rewrite (stateless_run e2 (stateless_materialize raw)), Hmat. cbv beta match.
  now rewrite Hnone.
Qed.

Lemma getAnswerOnly_try_row (conn : TDConn) (vs : Evs)
    (question top_k faq_tbl raw records best kb_id row : pyval) (faq : string)
    (e1 e2 e3 : Ext) :
  similarity_search vs question top_k e1 = (Ret raw, e2) ->
  fst (_materialize raw e2) = Ret records ->
  py_truthy records = true ->
  fst (py_max records (fun r => getitem_str r "score") e2) = Ret best ->
  fst (getitem_str best "kb_id" e2) = Ret kb_id ->
  py_format faq_tbl = Ret faq ->
  answer_query conn faq kb_id e2 = (Ret row, e3) ->
  getAnswerOnly_try conn vs question top_k faq_tbl e1
  = (if py_truthy row then fst (getitem_0 row e3)
     else Ret (PStr "(No answer for this kb_id)"), e3).
Proof.
  intros Hsearch Hmat Hsome Hbest Hkb Hfaq Hrow. unfold getAnswerOnly_try.
  unfold bind at 1. rewrite Hsearch. cbv beta match.
  unfold bind at 1.
  rewrite (stateless_run e2 (stateless_materialize raw)), Hmat. cbv beta match.
  rewrite Hsome. cbn [negb].
  unfold bind at 1.
  rewrite (stateless_run e2
             (stateless_py_max records (fun r => getitem_str r "score")
                (fun r => stateless_getitem_str r "score"))), Hbest.
  cbv beta match. unfold bind at 1.
  rewrite (stateless_run e2 (stateless_getitem_str best "kb_id")), Hkb.
  cbv beta match. unfold bind at 1. unfold pure at 1. rewrite Hfaq.
  cbv beta match. unfold answer_query in Hrow.
  unfold bind at 1. rewrite Hrow. cbv beta match.
  destruct (py_truthy row).
  - unfold bind. rewrite (stateless_run e3 (stateless_getitem_0 row)).
    now destruct (fst (getitem_0 row e3)).
  - reflexivity.
Qed.

(** C10: once [get_evs()] has returned a session, the tool never raises.
    An exception of any step of the [try] block is returned as the JSON
    text with status [error] and the message; falsy records give
    [(No similar question found)]; a falsy row for the best-scoring
    [kb_id] gives [(No answer for this kb_id)]; otherwise, when the
    first column of the row is text, that text is returned as a plain
    string. *)
Theorem getAnswerOnly_outcomes (conn : TDConn) (question top_k faq_tbl : pyval)
    (e e1 : Ext) (vs : Evs) :
  get_evs e = (Ret vs, e1) ->
  let r := handle_evs_similarity_search_getAnswerOnly conn question top_k faq_tbl e in
  (forall x, fst r <> Raise x) /\
  (forall x e2,
     getAnswerOnly_try conn vs question top_k faq_tbl e1 = (Raise x, e2) ->
     r = (Ret (error_json x), e2)) /\
  (forall raw e2 records,
     similarity_search vs question top_k e1 = (Ret raw, e2) ->
     fst (_materialize raw e2) = Ret records ->
     (py_truthy records = false ->
      r = (Ret (PStr "(No similar question found)"), e2)) /\
     (forall best kb_id faq row e3,
        py_truthy records = true ->
        fst (py_max records (fun r => getitem_str r "score") e2) = Ret best ->
        fst (getitem_str best "kb_id" e2) = Ret kb_id ->
        py_format faq_tbl = Ret faq ->
        answer_query conn faq kb_id e2 = (Ret row, e3) ->
        (py_truthy row = false ->
         r = (Ret (PStr "(No answer for this kb_id)"), e3)) /\
        (forall answer : string,
           py_truthy row = true ->
           fst (getitem_0 row e3) = Ret (PStr answer) ->
           r = (Ret (PStr answer), e3)))).
Proof.
  intros Hevs r.
  assert (Hr : r = try_except (getAnswerOnly_try conn vs question top_k faq_tbl)
                     (fun e => ret (error_json e)) e1).
  { subst r. unfold handle_evs_similarity_search_getAnswerOnly, bind.
    now rewrite Hevs. }
  rewrite Hr. clear Hr r. unfold try_except.
  split; [|split].
  - intros x.
    destruct (getAnswerOnly_try conn vs question top_k faq_tbl e1) as [[a|y|c|] e2];
      simpl; discriminate.
  - intros x e2 Htry. now rewrite Htry.
  - intros raw e2 records Hsearch Hmat. split.
    + intros Hnone.
      now erewrite getAnswerOnly_try_no_records by eassumption.
    + intros best kb_id faq row e3 Hsome Hbest Hkb Hfaq Hrow.
      erewrite getAnswerOnly_try_row by eassumption.
      split.
      * intros Hnone. now rewrite Hnone.
      * intros answer Hsome' Hans. now rewrite Hsome', Hans.
Qed.

End EvsToolsFacts.

(** ** Runs on the simulated world *)

Section SimRuns.

Import Sim.

Lemma execute_db_tool_acquires_witness :
  (conn_truthy (_tdconn stale) (ext stale) = false /\
   _tdconn (snd (execute_db_tool ping [] [] stale)) = 1 /\
   trace (snd (execute_db_tool ping [] [] stale)) = [EvConnect; EvDbTool 1]) /\
  (conn_truthy (_tdconn serving) (ext serving) = true /\
   _tdconn (snd (execute_db_tool ping [] [] serving)) = 0 /\
   trace (snd (execute_db_tool ping [] [] serving)) = [EvDbTool 0]) /\
  trace (snd (execute_db_tool ping [] []
                (snd (execute_db_tool ping [] [] stale))))
  = [EvConnect; EvDbTool 1; EvDbTool 1].
Proof.
  pose proof (execute_db_tool_acquires ping [] [] stale) as [Hfresh [_ Hnext]].
  pose proof (execute_db_tool_acquires ping [] [] serving) as [_ [Hlive _]].
  destruct (Hfresh 1 (connected (ext stale)) eq_refl eq_refl) as [H1 [H2 _]].
  destruct (Hlive eq_refl) as [H3 [H4 _]].
  destruct (Hnext 1 (connected (ext stale)) ping [] [] eq_refl eq_refl eq_refl)
    as [_ H5].
  repeat split; assumption.
Defined.

Lemma execute_db_tool_catches_witness :
  json_rejects_E /\
  fst (execute_db_tool broken [] [] serving) = Ret (error_envelope "socket closed") /\
  fst (execute_db_tool ping [] []
         (on_world (with_connect (Raises "connection refused") (ext stale)) stale))
  = Ret (error_envelope "connection refused").
Proof.
  split; [exact sim_rejects_E|]. split.
  - exact (proj1 (proj2 (execute_db_tool_catches broken [] [] serving sim_rejects_E))
             (Exn "OperationalError" "socket closed") (ext serving)
             eq_refl eq_refl).
  - exact (proj1 (proj2 (proj2
             (execute_db_tool_catches ping [] []
                (on_world (with_connect (Raises "connection refused") (ext stale))
                   stale) sim_rejects_E)))
             (Exn "Exception" "connection refused")
             (with_connect (Raises "connection refused") (ext stale))
             eq_refl eq_refl).
Defined.

Lemma execute_vs_tool_refresh_failure_escapes_witness :
  fst (execute_vs_tool search_tool [] [] unreachable)
  = Raise (Exn "Exception" "connection refused") /\
  trace (snd (execute_vs_tool search_tool [] [] unreachable))
  = [EvVsTool 0; EvRefresh].
Proof.
  exact (execute_vs_tool_refresh_failure_escapes search_tool [] [] unreachable
           (v := 0) (x := Exn "HTTPError" "401 Unauthorized")
           (e1 := ext unreachable) (e2 := ext unreachable)
           eq_refl eq_refl eq_refl eq_refl eq_refl).
Defined.


Lemma shutdown_exit_code_witness :
  fst (shutdown None serving) = Exit 0 /\
  fst (shutdown (Some 15%Z) serving) = Exit 143 /\
  fst (shutdown (Some 15%Z) (set_shutdown_in_progress true serving)) = Exit 1.
Proof.
  destruct (shutdown_exit_code serving) as [Hclean _].
  destruct (Hclean (closed 0 (ext serving)) eq_refl eq_refl) as [H0 Hsig].
  destruct (shutdown_exit_code (set_shutdown_in_progress true serving))
    as [_ Hforced].
  split; [exact H0|]. split; [exact (Hsig 15%Z) | exact (Hforced eq_refl (Some 15%Z))].
Defined.

Lemma hung_teardown_blocks_exit_witness :
  exists s',
    run (Live (on_world (with_close Hangs (ext serving)) serving))
      [Shutdown (Some 15%Z); Shutdown (Some 15%Z); Shutdown (Some 2%Z)]
    = Blocked s' /\
    shutdown_in_progress s' = false /\
    trace s' = [EvClose 0] /\
    forall sig2, trace (snd (shutdown sig2 s')) = (trace s' ++ [EvClose (_tdconn s')])%list.
Proof.
  exact (hung_teardown_blocks_exit
           (on_world (with_close Hangs (ext serving)) serving) (Some 15%Z)
           (e1 := with_close Hangs (ext serving)) eq_refl eq_refl
           [Shutdown (Some 15%Z); Shutdown (Some 2%Z)]).
Defined.

Lemma main_streamable_http_creates_no_marker_witness :
  fst (main (env_vs "streamable-http") serving) = Ret StreamableHttp /\
  alive_file (snd (main (env_vs "streamable-http") serving)) = false.
Proof.
  exact (main_streamable_http_creates_no_marker (env_vs "streamable-http") serving
           (t := "8001") (port := 8001%Z) eq_refl eq_refl eq_refl).
Defined.

(** C10, as stated, fails twice.  With no vector store to connect to,
    [get_evs()] raises before the [try] block is entered and the tool
    raises.  And when the answer column of the row is NULL, the tool
    returns [None], which is no string. *)
Lemma getAnswerOnly_claim_fails :
  fst (handle_evs_similarity_search_getAnswerOnly 0
         (PStr "How do I restart the service?") (PInt 2) (PStr "FAQ_DEMO")
         (with_evs (Raises "VS_NAME is not set") (ext serving)))
  = Raise (Exn "Exception" "VS_NAME is not set") /\
  fst (handle_evs_similarity_search_getAnswerOnly 0
         (PStr "How do I restart the service?") (PInt 2) (PStr "FAQ_DEMO")
         (mkWorld Returns 1 [0] Returns Returns Returns 0 (search calm)
            (PList [PNone])))
  = Ret PNone.
Proof. split; reflexivity. Qed.

Lemma getAnswerOnly_outcomes_witness :
  get_evs (ext serving) = (Ret 0, ext serving) /\
  handle_evs_similarity_search_getAnswerOnly 0
    (PStr "How do I restart the service?") (PInt 2) (PStr "FAQ_DEMO") (ext serving)
  = (Ret (PStr "Restart the service."), ext serving).
Proof.
  split; [reflexivity|].
  pose proof (getAnswerOnly_outcomes 0 (PStr "How do I restart the service?")
                (PInt 2) (PStr "FAQ_DEMO") (ext serving) (e1 := ext serving)
                (vs := 0) eq_refl) as [_ [_ Hcases]].
  destruct (Hcases (search (ext serving)) (ext serving) (search (ext serving))
              eq_refl eq_refl) as [_ Hfound].
  destruct (Hfound
              (PDict [(PStr "kb_id", PInt 9); (PStr "score", PInt 5)])
              (PInt 9) "FAQ_DEMO" (fetch (ext serving)) (ext serving)
              eq_refl eq_refl eq_refl eq_refl eq_refl) as [_ Hanswer].
  exact (Hanswer "Restart the service." eq_refl eq_refl).
Defined.

(** The refresh works and the retried call succeeds: one refresh, one
    retry. *)
Example refresh_then_retry :
  execute_vs_tool search_tool [] [] (on_world (expired (ext serving)) serving)
  = (Ret [TextContent "text" "hit"],
     mkState false 0 true (Some 2) None None None false
       (refreshed (expired (ext serving)))
       [EvVsTool 0; EvRefresh; EvVsTool 2]).
Proof. reflexivity. Qed.

(** The retried call is refused again: an envelope, and no second
    refresh. *)
Example second_expiry :
  execute_vs_tool refused_tool [] [] serving
  = (Ret [TextContent "text" "Error: After refresh, still failed: Session expired"],
     mkState false 0 true (Some 1) None None None false
       (refreshed (ext serving))
       [EvVsTool 0; EvRefresh; EvVsTool 1]).
Proof. reflexivity. Qed.

(** Started with the transport [SSE], [main] creates the marker file,
    and [shutdown] removes it. *)
Example sse_marker :
  alive_file (snd (main (env_vs "SSE") serving)) = true /\
  alive_file (snd (shutdown (Some 15%Z) (snd (main (env_vs "SSE") serving)))) = false.
Proof. split; reflexivity. Qed.

(** The tool without records, and without a row for the best match. *)
Example no_similar_question :
  fst (handle_evs_similarity_search_getAnswerOnly 0 (PStr "?") (PInt 2)
         (PStr "FAQ_DEMO")
         (mkWorld Returns 1 [0] Returns Returns Returns 0 (PList []) PNone))
  = Ret (PStr "(No similar question found)").
Proof. reflexivity. Qed.

Example no_answer_for_kb_id :
  fst (handle_evs_similarity_search_getAnswerOnly 0 (PStr "?") (PInt 2)
         (PStr "FAQ_DEMO")
         (mkWorld Returns 1 [0] Returns Returns Returns 0 (search calm) PNone))
  = Ret (PStr "(No answer for this kb_id)").
Proof. reflexivity. Qed.

End SimRuns.

(** * Further results *)


(** ** The expiry signature *)

Lemma after_prefix_Some (p s r : string) :
  after_prefix p s = Some r -> s = p ++ r.
Proof.
  revert s. induction p as [|a p IH]; intros s; simpl.
  - now intros [= ->].
  - destruct s as [|b s]; [discriminate|].
    destruct (Ascii.eqb_spec a b) as [->|]; [|discriminate].
    intros Hr. now rewrite (IH s Hr).
Qed.

Lemma contains_iff (needle hay : string) :
  contains needle hay = true <-> exists pre post, hay = pre ++ needle ++ post.
Proof.
  split.
  - induction hay as [|b hay IH].
    + simpl. rewrite orb_false_r. unfold starts_with.
      destruct (after_prefix needle EmptyString) as [r|] eqn:Hr; [|discriminate].
      intros _. exists EmptyString, r. simpl. now apply after_prefix_Some.
    + cbn [contains]. intros Hc. apply orb_true_iff in Hc. destruct Hc as [Hc|Hc].
      * unfold starts_with in Hc.
        destruct (after_prefix needle (String b hay)) as [r|] eqn:Hr; [|discriminate].
        exists EmptyString, r. simpl. now apply after_prefix_Some.
      * destruct (IH Hc) as [pre [post ->]].
        now exists (String b pre), post.
  - intros [pre [post ->]]. induction pre as [|b pre IH].
    + simpl. assert (Hs : starts_with needle (needle ++ post) = true).
      { unfold starts_with. now rewrite after_prefix_app. }
      destruct (needle ++ post); simpl in *; rewrite Hs; reflexivity.
    + cbn [append contains]. rewrite IH. apply orb_true_r.
Qed.

(** X1: an exception carries the expiry signature exactly when [401] or
    [Session expired] occurs somewhere in its text, whatever stands
    before or after. *)
Theorem expiry_signature_iff (e : exn) :
  expiry_signature e = true <->
  (exists pre post, exn_text e = pre ++ "401" ++ post) \/
  (exists pre post, exn_text e = pre ++ "Session expired" ++ post).
Proof.
  unfold expiry_signature. rewrite orb_true_iff, !contains_iff. reflexivity.
Qed.

(** ** The module body and the enabled flag *)

Section StartupFacts.

Context `{Interpreter} `{Outside}.

Lemma lstrip_all_space_upto (n : nat) (s : string) :
  (String.length s <= n)%nat -> all_space s = true -> lstrip s = EmptyString.
Proof.
  revert s. induction n as [|n IH]; intros s Hlen.
  - destruct s; [reflexivity | simpl in Hlen; lia].
  - destruct s as [|a s1]; [reflexivity|]. simpl in Hlen. cbn [all_space lstrip].
    destruct (space1 a); [apply IH; lia|].
    destruct s1 as [|b s2]; [discriminate|]. simpl in Hlen.
    destruct (space2 a b); [apply IH; lia|].
    destruct s2 as [|c s3]; [discriminate|]. simpl in Hlen.
    intros Hs. apply andb_true_iff in Hs. destruct Hs as [Hc Hs].
    rewrite Hc. apply IH; [lia | exact Hs].
Qed.

Lemma lstrip_all_space (s : string) :
  all_space s = true -> lstrip s = EmptyString.
Proof. apply (@lstrip_all_space_upto (String.length s) s). lia. Qed.

Lemma strip_all_space (s : string) :
  all_space s = true -> strip s = EmptyString.
Proof. intros Hs. unfold strip. now rewrite (lstrip_all_space s Hs). Qed.

Lemma all_space_lstrip_upto (n : nat) (s : string) :
  (String.length s <= n)%nat -> all_space (lstrip s) = all_space s.
Proof.
  revert s. induction n as [|n IH]; intros s Hlen.
  - destruct s; [reflexivity | simpl in Hlen; lia].
  - destruct s as [|a s1]; [reflexivity|]. simpl in Hlen.
    cbn [lstrip]. destruct (space1 a) eqn:Ha.
    { rewrite IH by lia. cbn [all_space]. now rewrite Ha. }
    destruct s1 as [|b s2]; [reflexivity|]. simpl in Hlen.
    destruct (space2 a b) eqn:Hb.
    { rewrite IH by lia. cbn [all_space]. now rewrite Ha, Hb. }
    destruct s2 as [|c s3]; [reflexivity|]. simpl in Hlen.
    destruct (space3 a b c) eqn:Hc; [|reflexivity].
    rewrite IH by lia. cbn [all_space]. now rewrite Ha, Hb, Hc.
Qed.

Lemma rstrip_empty (s : string) : rstrip s = EmptyString -> all_space s = true.
Proof.
  destruct s as [|a s']; [reflexivity|]. cbn [rstrip].
  now destruct (all_space (String a s')).
Qed.

Lemma strip_empty_iff (s : string) :
  strip s = EmptyString <-> all_space s = true.
Proof.
  split; [|apply strip_all_space].
  intros Hs. apply rstrip_empty in Hs.
  now rewrite (@all_space_lstrip_upto (String.length s) s) in Hs by lia.
Qed.

(** X2: the module body tries to reach the vector store exactly when
    [VS_NAME] holds a character that is not white space.  When it is
    unset, empty or made of white space only, the one call the module
    body makes is the warehouse connect, and the vector store is
    disabled; otherwise [get_evs()] is called, once, after the
    connect. *)
Theorem module_init_blank_name (env : environ) (alive0 : bool) (e0 e1 : Ext)
    (h : TDConn) :
  TDConn_new e0 = (Ret h, e1) ->
  (all_space (getenv (VS_NAME env) EmptyString) = true ->
   module_init env alive0 e0
   = (Ret (mkState false h false None None None None alive0 e1 [EvConnect]), e1)) /\
  (all_space (getenv (VS_NAME env) EmptyString) = false ->
   forall s0 e,
     module_init env alive0 e0 = (Ret s0, e) ->
     trace s0 = [EvConnect; EvGetEvs]).
Proof.
  intros Hnew. split.
  - intros Hblank. unfold module_init. rewrite Hnew.
    rewrite (strip_all_space _ Hblank). reflexivity.
  - intros Hname s0 e. unfold module_init. rewrite Hnew.
    destruct (strip (getenv (VS_NAME env) EmptyString)) as [|a t] eqn:Hstrip.
    { apply strip_empty_iff in Hstrip. congruence. }
    cbn [String.length Nat.ltb Nat.leb]. unfold_m. simpl.
    destruct (get_evs e1) as [[v|x|c|] e2]; simpl; intros [= <- <-];
      reflexivity.
Qed.





End StartupFacts.

(** ** Reconnecting *)

Section ReconnectFacts.

Context `{Interpreter} `{Outside}.

(** X4: [reconnect_to_database] never raises.  When the connect fails,
    the stored handle stays and the failure is returned as an error
    envelope.  When the connect returns, the new handle replaces the
    stored one, which is not closed, and it stays in place even when
    the [teradataml] context then fails and an error envelope is
    returned.  When both return, the answer is the formatted success
    text, or the error envelope of an exception of the formatting. *)
Theorem reconnect_to_database_outcomes (s : state) :
  json_rejects_E ->
  (forall e, fst (reconnect_to_database s) <> Raise e) /\
  (forall x e1,
     TDConn_new (ext s) = (Raise x, e1) ->
     fst (reconnect_to_database s) = Ret (error_envelope (exn_text x)) /\
     _tdconn (snd (reconnect_to_database s)) = _tdconn s /\
     trace (snd (reconnect_to_database s)) = (trace s ++ [EvConnect])%list) /\
  (forall h e1 x e2,
     TDConn_new (ext s) = (Ret h, e1) ->
     teradataml_connection e1 = (Raise x, e2) ->
     fst (reconnect_to_database s) = Ret (error_envelope (exn_text x)) /\
     _tdconn (snd (reconnect_to_database s)) = h) /\
  (forall h e1 e2,
     TDConn_new (ext s) = (Ret h, e1) ->
     teradataml_connection e1 = (Ret tt, e2) ->
     fst (reconnect_to_database s)
     = match format_text_response
               (PStr "Reconnected to Teradata database successfully.") with
       | Raise x => Ret (error_envelope (exn_text x))
       | response => response
       end /\
     _tdconn (snd (reconnect_to_database s)) = h /\
     trace (snd (reconnect_to_database s))
     = (trace s ++ [EvConnect; EvTeradataml])%list).
Proof.
  intros HE. unfold error_envelope.
  split; [|split; [|split]].
  - intros e. unfold reconnect_to_database. unfold_m. simpl.
    destruct (TDConn_new (ext s)) as [[h|x|c|] e1]; simpl;
      rewrite ?format_error_response_text by assumption; try discriminate.
    destruct (teradataml_connection e1) as [[[]|x|c|] e2]; simpl;
      try destruct (format_text_response _); simpl;
      rewrite ?format_error_response_text by assumption; discriminate.
  - intros x e1 Hnew. unfold reconnect_to_database. unfold_m. simpl.
    rewrite Hnew. simpl. rewrite format_error_response_text by assumption. auto.
  - intros h e1 x e2 Hnew Htd. unfold reconnect_to_database. unfold_m. simpl.
    rewrite Hnew. simpl. rewrite Htd. simpl.
    rewrite format_error_response_text by assumption. auto.
  - intros h e1 e2 Hnew Htd. unfold reconnect_to_database. unfold_m. simpl.
    rewrite Hnew. simpl. rewrite Htd. simpl.
    destruct (format_text_response _); simpl;
      rewrite ?format_error_response_text by assumption;
      rewrite <- app_assoc; auto.
Qed.

(** X5: when the stored handle fails the test and the reconnect raises,
    [execute_db_tool] does not run the handler: the connect attempt is
    its only call, and the stored handle is left as it was, so the next
    call makes the attempt again. *)
Theorem execute_db_tool_reconnect_failure (tool : db_tool) (args : list pyval)
    (kwargs : list (string * pyval)) (s : state) (x : exn) (e1 : Ext) :
  conn_truthy (_tdconn s) (ext s) = false ->
  TDConn_new (ext s) = (Raise x, e1) ->
  _tdconn (snd (execute_db_tool tool args kwargs s)) = _tdconn s /\
  ext (snd (execute_db_tool tool args kwargs s)) = e1 /\
  trace (snd (execute_db_tool tool args kwargs s)) = (trace s ++ [EvConnect])%list /\
  (conn_truthy (_tdconn s) e1 = false ->
   forall tool2 args2 kwargs2 y e2,
     TDConn_new e1 = (Raise y, e2) ->
     trace (snd (execute_db_tool tool2 args2 kwargs2
                   (snd (execute_db_tool tool args kwargs s))))
     = (trace s ++ [EvConnect; EvConnect])%list).
Proof.
  intros Hdead Hnew.
  assert (Hone : forall (t : db_tool) a k s0 y e2,
            conn_truthy (_tdconn s0) (ext s0) = false ->
            TDConn_new (ext s0) = (Raise y, e2) ->
            _tdconn (snd (execute_db_tool t a k s0)) = _tdconn s0 /\
            ext (snd (execute_db_tool t a k s0)) = e2 /\
            trace (snd (execute_db_tool t a k s0)) = (trace s0 ++ [EvConnect])%list).
  { intros t a k s0 y e2 Hd Hn. unfold execute_db_tool. unfold_m. simpl.
    rewrite Hd. simpl. rewrite Hn. simpl. auto. }
  destruct (Hone tool args kwargs s x e1 Hdead Hnew) as [Hh [He Ht]].
  repeat split; try assumption.
  intros Hstill tool2 args2 kwargs2 y e2 Hnew2.
  destruct (Hone tool2 args2 kwargs2 (snd (execute_db_tool tool args kwargs s)) y e2)
    as [_ [_ Ht2]].
  - now rewrite Hh, He.
  - now rewrite He.
  - rewrite Ht2, Ht, <- app_assoc. reflexivity.
Qed.

End ReconnectFacts.

(** ** Shutdown and startup of the transport *)

Section LifecycleMore.

Context `{Interpreter} `{Outside}.

(** X6: when [_tdconn.close()] raises, [shutdown] does not end the
    process: the exception leaves [shutdown], the server goes on
    serving with [shutdown_in_progress] still false, and the marker
    file is gone already. *)
Theorem shutdown_close_raises (s : state) (sig : option Z) (x : exn) (e1 : Ext) :
  shutdown_in_progress s = false ->
  TDConn_close (_tdconn s) (ext s) = (Raise x, e1) ->
  fst (shutdown sig s) = Raise x /\
  deliver (Live s) (Shutdown sig) = Live (snd (shutdown sig s)) /\
  shutdown_in_progress (snd (shutdown sig s)) = false /\
  alive_file (snd (shutdown sig s)) = false.
Proof.
  intros Hflag Hclose. unfold deliver, handle, shutdown. unfold_m. simpl.
  destruct (alive_file s) eqn:Halive; simpl; rewrite Hflag; simpl;
    rewrite Hclose; simpl; auto.
Qed.

(** X7: whatever the environment, [main] leaves the marker file in
    place exactly when it reaches the SSE transport loop; on every
    other way out, a raised exception included, the marker is as it
    was. *)
Theorem main_marker (env : environ) (s : state) :
  alive_file (snd (main env s))
  = match fst (main env s) with
    | Ret Sse => true
    | _ => alive_file s
    end.
Proof.
  unfold main, int_getenv.
  destruct (String.eqb (lower (getenv (MCP_TRANSPORT env) "stdio")) "sse").
  - unfold_m. simpl. destruct (MCP_PORT env) as [t|]; simpl; [|reflexivity].
    destruct (py_int t); reflexivity.
  - destruct (String.eqb (lower (getenv (MCP_TRANSPORT env) "stdio"))
                "streamable-http"); [|reflexivity].
    unfold_m. simpl. destruct (MCP_PORT env) as [t|]; simpl; [|reflexivity].
    destruct (py_int t); reflexivity.
Qed.

(** X8: the transport is chosen by the lowered value of
    [MCP_TRANSPORT] alone: SSE for [sse], streamable HTTP for
    [streamable-http], and stdio for every other value, a misspelt one
    included, in which case [main] changes nothing and raises nothing. *)
Theorem main_selects_transport (env : environ) (s : state) :
  (forall t, fst (main env s) = Ret t ->
     match t with
     | Sse => lower (getenv (MCP_TRANSPORT env) "stdio") = "sse"
     | StreamableHttp =>
         lower (getenv (MCP_TRANSPORT env) "stdio") = "streamable-http"
     | Stdio =>
         lower (getenv (MCP_TRANSPORT env) "stdio") <> "sse" /\
         lower (getenv (MCP_TRANSPORT env) "stdio") <> "streamable-http"
     end) /\
  (lower (getenv (MCP_TRANSPORT env) "stdio") <> "sse" ->
   lower (getenv (MCP_TRANSPORT env) "stdio") <> "streamable-http" ->
   main env s = (Ret Stdio, s)).
Proof.
  split.
  - intros t. unfold main, int_getenv.
    destruct (String.eqb_spec (lower (getenv (MCP_TRANSPORT env) "stdio")) "sse")
      as [Hsse|Hsse].
    + unfold_m. simpl. destruct (MCP_PORT env) as [p|]; simpl; [|discriminate].
      destruct (py_int p); simpl; try discriminate. now intros [= <-].
    + destruct (String.eqb_spec (lower (getenv (MCP_TRANSPORT env) "stdio"))
                  "streamable-http") as [Hhttp|Hhttp].
      * unfold_m. simpl. destruct (MCP_PORT env) as [p|]; simpl; [|discriminate].
        destruct (py_int p); simpl; try discriminate. now intros [= <-].
      * unfold_m. intros [= <-]. split; assumption.
  - intros Hsse Hhttp. unfold main.
    apply String.eqb_neq in Hsse. apply String.eqb_neq in Hhttp.
    now rewrite Hsse, Hhttp.
Qed.

(** X9: in either networked mode with [MCP_PORT] unset, [main] raises
    [TypeError] before it reaches the transport loop; the host is
    assigned already, and no marker file is created. *)
Theorem main_port_unset (env : environ) (s : state) :
  lower (getenv (MCP_TRANSPORT env) "stdio") = "sse" \/
  lower (getenv (MCP_TRANSPORT env) "stdio") = "streamable-http" ->
  MCP_PORT env = None ->
  exists msg,
    main env s = (Raise (Exn "TypeError" msg), set_host (MCP_HOST env) s).
Proof.
  intros [Hmode|Hmode] Hport; unfold main, int_getenv; rewrite Hmode, Hport;
    unfold_m; simpl; eexists; reflexivity.
Qed.

End LifecycleMore.

(** ** [_materialize] on values it has no branch for *)

Section MaterializeFacts.

Context {S : Type} `{Interpreter}.

(** X10: [None], a boolean, a number or a dictionary cannot be
    materialized: [_materialize] raises [TypeError].  A dictionary has
    an attribute [items], but it is a method and not a list. *)
Theorem materialize_rejects (obj : pyval) (s : S) :
  match obj with
  | PNone | PBool _ | PInt _ | PFloat _ | PDict _ => True
  | _ => False
  end ->
  exists msg, _materialize obj s = (Raise (Exn "TypeError" msg), s).
Proof.
  destruct obj; intros Hshape; try contradiction;
    unfold _materialize, materialize_rest; simpl; eexists; reflexivity.
Qed.

End MaterializeFacts.

(** ** The vector-store tools *)

Section SearchFacts.

Context `{Interpreter} `{Searching}.


Lemma getAnswerOnly_tool_call (h : TDConn) (question top_k : pyval) :
  getAnswerOnly_tool h [] [("question", question); ("top_k", top_k)]
  = handle_evs_similarity_search_getAnswerOnly h question top_k (PStr "FAQ_DEMO").
Proof. reflexivity. Qed.






(** X13: [vector_store_best_answer] goes through [execute_db_tool], so
    it does not look at [_enableEVS]: whatever the flag says, it runs
    the tool on the stored handle, and a [get_evs()] that raises comes
    back as the error envelope of that exception, not as the fixed
    envelope of a disabled vector store. *)
Theorem vector_store_best_answer_not_gated (question top_k : pyval) (s : state) :
  json_rejects_E ->
  conn_truthy (_tdconn s) (ext s) = true ->
  trace (snd (vector_store_best_answer question top_k s))
  = (trace s ++ [EvDbTool (_tdconn s)])%list /\
  forall x e1,
    get_evs (ext s) = (Raise x, e1) ->
    fst (vector_store_best_answer question top_k s)
    = Ret (error_envelope (exn_text x)).
Proof.
  intros HE Hlive. unfold vector_store_best_answer, execute_db_tool.
  unfold_m. simpl. rewrite Hlive. simpl.
  rewrite getAnswerOnly_tool_call. split.
  - destruct (handle_evs_similarity_search_getAnswerOnly (_tdconn s) question
                top_k (PStr "FAQ_DEMO") (ext s)) as [[r|x|c|] e1]; simpl;
      try destruct (format_text_response r); reflexivity.
  - intros x e1 Hevs. unfold handle_evs_similarity_search_getAnswerOnly.
    unfold bind at 1. rewrite Hevs. simpl.
    now rewrite format_error_response_text.
Qed.

End SearchFacts.

(** ** The feature store configuration *)

Section FeatureStoreFacts.

Context `{Interpreter} `{FeatureStoreLib}.

Variable P : FeatureStoreConfig -> Prop.

Lemma config_kept_ret {A} (a : A) : config_kept P (ret a).
Proof. intros s Hs. exact Hs. Qed.

Lemma config_kept_raise {A} (e : exn) : config_kept P (@raise fs_state A e).
Proof. intros s Hs. exact Hs. Qed.

Lemma config_kept_bind {A B} (m : M fs_state A) (k : A -> M fs_state B) :
  config_kept P m -> (forall a, config_kept P (k a)) -> config_kept P (bind m k).
Proof.
  intros Hm Hk s Hs. unfold bind. specialize (Hm s Hs).
  destruct (m s) as [[a|x|c|] s1]; simpl in *; try exact Hm.
  now apply Hk.
Qed.

Lemma config_kept_get : config_kept P get.
Proof. intros s Hs. exact Hs. Qed.

Lemma config_kept_outside {A} (m : M Ext A) : config_kept P (fs_outside m).
Proof.
  intros s Hs. unfold fs_outside. now destruct (m (fs_ext s)).
Qed.

Lemma config_kept_stateless {A} (m : M fs_state A) :
  stateless m -> config_kept P m.
Proof. intros Hm s Hs. now rewrite Hm. Qed.

Lemma config_kept_update (f : FeatureStoreConfig -> FeatureStoreConfig) :
  (forall c, P c -> P (f c)) -> config_kept P (fs_update f).
Proof. intros Hf s Hs. simpl. now apply Hf. Qed.

Lemma config_kept_count_positive (sql : string) :
  config_kept P (count_positive sql).
Proof.
  unfold count_positive.
  apply config_kept_bind; [apply config_kept_outside|]. intros result.
  apply config_kept_bind;
    [apply config_kept_stateless, stateless_call_method|]. intros rows.
  apply config_kept_bind;
    [apply config_kept_stateless, stateless_getitem_0|]. intros row.
  apply config_kept_bind;
    [apply config_kept_stateless, stateless_getitem_0|]. intros n.
  apply config_kept_stateless, stateless_pure.
Qed.

(** The second and third block and the answer keep every property that
    does not depend on the data domain and the entity. *)
Lemma config_kept_validation (data_domain_ entity_ : option string) :
  (forall c v, P c -> P (set_data_domain v c)) ->
  (forall c v, P c -> P (set_entity v c)) ->
  config_kept P
    (s <- get ;;
     (match db_name (fs_config s), data_domain_ with
      | Some _, Some dd =>
          positive <- count_positive
                        ("SEL count(*) AS N FROM "
                         ++ opt_format (feature_catalog (fs_config s))
                         ++ " WHERE UPPER(data_domain) = '" ++ py_upper dd ++ "'") ;;
          if positive : bool then fs_update (set_data_domain (Some dd))
          else fs_update (set_data_domain None)
      | _, _ => ret tt
      end) ;;;
     s <- get ;;
     (match db_name (fs_config s), data_domain (fs_config s), entity_ with
      | Some _, Some _, Some ent =>
          dd_upper <- opt_upper data_domain_ ;;
          positive <- count_positive
                        ("SEL count(*) AS N FROM "
                         ++ opt_format (feature_catalog (fs_config s))
                         ++ " WHERE UPPER(data_domain) = '" ++ dd_upper
                         ++ "' AND ENTITY_NAME = '" ++ py_upper ent ++ "'") ;;
          if positive : bool then fs_update (set_entity (Some ent)) else ret tt
      | _, _, _ => ret tt
      end) ;;;
     s <- get ;;
     text <- pure (py_str (config_dict (fs_config s))) ;;
     pure (format_text_response
             (PStr ("Feature store config updated: " ++ text)))).
Proof.
  intros Hdd Hent.
  apply config_kept_bind; [apply config_kept_get|]. intros s.
  apply config_kept_bind.
  { destruct (db_name (fs_config s)); [|apply config_kept_ret].
    destruct data_domain_ as [dd|]; [|apply config_kept_ret].
    apply config_kept_bind; [apply config_kept_count_positive|].
    intros [|]; apply config_kept_update; auto. }
  intros _. apply config_kept_bind; [apply config_kept_get|]. intros s1.
  apply config_kept_bind.
  { destruct (db_name (fs_config s1)); [|apply config_kept_ret].
    destruct (data_domain (fs_config s1)); [|apply config_kept_ret].
    destruct entity_ as [ent|]; [|apply config_kept_ret].
    apply config_kept_bind.
    { destruct data_domain_; [apply config_kept_ret | apply config_kept_raise]. }
    intros dd_upper.
    apply config_kept_bind; [apply config_kept_count_positive|].
    intros [|]; [apply config_kept_update; auto | apply config_kept_ret]. }
  intros _. apply config_kept_bind; [apply config_kept_get|]. intros s2.
  apply config_kept_bind; [|intros text]; intros s3 Hs3; exact Hs3.
Qed.

End FeatureStoreFacts.

Section FeatureStoreResults.

Context `{Interpreter} `{FeatureStoreLib}.

Ltac unfold_fs :=
  unfold fs_update, fs_outside in *; unfold_m.

Lemma fs_set_keeps_catalogs_step (data_domain_ db_name_ entity_ : option string) :
  config_kept catalogs_follow
    (fs_setFeatureStoreConfig data_domain_ db_name_ entity_).
Proof.
  unfold fs_setFeatureStoreConfig. apply config_kept_bind.
  - intros s Hinv. destruct db_name_ as [db|]; [|exact Hinv].
    destruct (opt_truthy (Some db)); [|exact Hinv].
    unfold_fs. simpl.
    destruct (tdfs4ds_connect db (fs_ext s)) as [[ok|x|c|] e1]; simpl;
      try exact Hinv.
    destruct (py_truthy ok); simpl; [|exact Hinv].
    destruct (negb (same_database (fs_config s) db)); simpl;
      intros db0 [= <-]; auto.
  - intros _. apply config_kept_validation.
    + intros c v Hc db Hdb. exact (Hc db Hdb).
    + intros c v Hc db Hdb. exact (Hc db Hdb).
Qed.

(** X14: starting from the configuration the module creates, after any
    sequence of calls of [fs_setFeatureStoreConfig], whatever their
    arguments, whatever the feature store answers and whether the calls
    return or raise, the three catalog names are those of the stored
    database name. *)
Theorem fs_set_keeps_catalogs
    (calls : list (option string * option string * option string)) (e : Ext) :
  catalogs_follow (fs_config (fs_calls calls (mkFsState fs_config_init e))).
Proof.
  assert (Hall : forall s, catalogs_follow (fs_config s) ->
                           catalogs_follow (fs_config (fs_calls calls s))).
  { unfold fs_calls. induction calls as [|[[dd db] ent] calls IH]; intros s Hs;
      [exact Hs|].
    simpl. apply IH. now apply fs_set_keeps_catalogs_step. }
  apply Hall. intros db Hdb. discriminate.
Qed.

(** X15: a call that names a database only, when the feature store
    connects, stores the database and its three catalogs; it keeps the
    data domain when the stored name is not empty and [upper()] maps
    it and the new name to the same text, and clears it otherwise; the
    stored entity is kept in both cases. *)
Theorem fs_set_database (db : string) (s : fs_state) (ok : pyval) (e1 : Ext) :
  db <> EmptyString ->
  tdfs4ds_connect db (fs_ext s) = (Ret ok, e1) ->
  py_truthy ok = true ->
  fs_config (snd (fs_setFeatureStoreConfig None (Some db) None s))
  = mkFeatureStoreConfig
      (if same_database (fs_config s) db then data_domain (fs_config s) else None)
      (entity (fs_config s)) (Some db)
      (Some (db ++ "." ++ FEATURE_CATALOG_NAME_VIEW))
      (Some (db ++ "." ++ PROCESS_CATALOG_NAME_VIEW))
      (Some (db ++ ".FS_V_FS_DATASET_CATALOG")) /\
  fs_ext (snd (fs_setFeatureStoreConfig None (Some db) None s)) = e1.
Proof.
  intros Hdb Hconn Hok. apply String.eqb_neq in Hdb.
  unfold fs_setFeatureStoreConfig, opt_truthy. rewrite Hdb. unfold_fs. simpl.
  rewrite Hconn. simpl. rewrite Hok. simpl.
  unfold set_dataset_catalog, set_process_catalog, set_feature_catalog,
    set_db_name, set_data_domain.
  destruct (same_database (fs_config s) db); simpl;
    destruct (data_domain (fs_config s)); simpl;
    destruct (py_str _); simpl; split; reflexivity.
Qed.

(** X16: once a database and a data domain are configured, a call that
    names an entity only raises [AttributeError]: the entity check
    formats the text of its query from the argument [data_domain],
    which is [None].  Nothing is asked of the feature store and the
    configuration is left as it was. *)
Theorem fs_set_entity_alone_raises (ent d dd : string) (s : fs_state) :
  db_name (fs_config s) = Some d ->
  data_domain (fs_config s) = Some dd ->
  fs_setFeatureStoreConfig None None (Some ent) s
  = (Raise (Exn "AttributeError" "'NoneType' object has no attribute 'upper'"), s).
Proof.
  intros Hdb Hdd. unfold fs_setFeatureStoreConfig, opt_upper. unfold_fs. simpl.
  rewrite Hdb. simpl. rewrite Hdb, Hdd. reflexivity.
Qed.

Lemma count_positive_config (sql : string) (s : fs_state) :
  fs_config (snd (count_positive sql s)) = fs_config s.
Proof.
  symmetry.
  exact (config_kept_count_positive (fun c => fs_config s = c) sql s eq_refl).
Qed.

(** X17: a call that names a data domain, on a configured database, asks
    the feature catalog once.  When no row matches, the stored data
    domain is cleared and an entity argument is not looked at; when a
    row matches and no entity is given, the data domain is stored. *)
Theorem fs_set_domain (dd d : string) (b : bool) (s s1 : fs_state) :
  db_name (fs_config s) = Some d ->
  count_positive
    ("SEL count(*) AS N FROM " ++ opt_format (feature_catalog (fs_config s))
     ++ " WHERE UPPER(data_domain) = '" ++ py_upper dd ++ "'") s = (Ret b, s1) ->
  (b = false ->
   forall entity_,
     snd (fs_setFeatureStoreConfig (Some dd) None entity_ s)
     = mkFsState (set_data_domain None (fs_config s)) (fs_ext s1)) /\
  (b = true ->
   snd (fs_setFeatureStoreConfig (Some dd) None None s)
   = mkFsState (set_data_domain (Some dd) (fs_config s)) (fs_ext s1)).
Proof.
  intros Hdb Hcount.
  assert (Hcfg : fs_config s1 = fs_config s).
  { pose proof (count_positive_config
                  ("SEL count(*) AS N FROM "
                   ++ opt_format (feature_catalog (fs_config s))
                   ++ " WHERE UPPER(data_domain) = '" ++ py_upper dd ++ "'") s) as Hc.
    now rewrite Hcount in Hc. }
  split; intros ->.
  - intros entity_. unfold fs_setFeatureStoreConfig.
    unfold bind at 1. unfold ret at 1. unfold bind at 1. unfold get at 1.
    rewrite Hdb. unfold bind at 1. unfold bind at 1. rewrite Hcount.
    unfold_fs. simpl. rewrite Hcfg, Hdb. simpl.
    now destruct (py_str _).
  - unfold fs_setFeatureStoreConfig.
    unfold bind at 1. unfold ret at 1. unfold bind at 1. unfold get at 1.
    rewrite Hdb. unfold bind at 1. unfold bind at 1. rewrite Hcount.
    unfold_fs. simpl. rewrite Hcfg, Hdb. simpl.
    now destruct (py_str _).
Qed.

End FeatureStoreResults.

(** ** Custom tools and prompts *)

Section LoaderFacts.

Context `{Interpreter}.

Lemma bind_assoc_at {S A B C} (m : M S A) (k : A -> M S B) (k' : B -> M S C)
    (s : S) :
  bind (bind m k) k' s = bind m (fun a => bind (k a) k') s.
Proof. unfold bind. now destruct (m s) as [[a|x|c|] s1]. Qed.

Lemma bind_ext_at {S A B} (m : M S A) (k k' : A -> M S B) (s : S) :
  (forall a s', k a s' = k' a s') -> bind m k s = bind m k' s.
Proof.
  intros Hk. unfold bind. destruct (m s) as [[a|x|c|] s1]; try reflexivity.
  apply Hk.
Qed.

Lemma read_query_defs_app (l1 l2 : list (string * outcome pyval))
    (q : list pyval) :
  read_query_defs (l1 ++ l2) q
  = (read_query_defs l1 ;;; read_query_defs l2) q.
Proof.
  revert q. induction l1 as [|[file content] l1 IH]; intros q; [reflexivity|].
  cbn [app read_query_defs]. rewrite bind_assoc_at.
  apply bind_ext_at. intros _ q1. apply IH.
Qed.

Lemma read_query_defs_lists (listing : list (string * outcome pyval))
    (q : list pyval) :
  Forall file_loads listing ->
  read_query_defs listing q = (Ret tt, (q ++ flat_map file_records listing)%list).
Proof.
  intros Hall. revert q.
  induction Hall as [|[file content] listing Hfile _ IH]; intros q.
  - simpl. now rewrite app_nil_r.
  - cbn [read_query_defs flat_map]. unfold file_loads in Hfile.
    unfold file_records at 1. simpl in *. destruct (ends_with "_tools.yaml" file).
    + destruct (Hfile eq_refl) as [l ->]. unfold bind, pure, modify. simpl.
      rewrite IH. now rewrite app_assoc.
    + unfold bind, ret. rewrite IH. reflexivity.
Qed.

(** X18: when every file whose name ends in [_tools.yaml] holds a list,
    [query_defs] receives the records of those files, in the order of
    the directory listing; no other file is read. *)
Theorem read_query_defs_concat (listing : list (string * outcome pyval)) :
  Forall file_loads listing ->
  read_query_defs listing [] = (Ret tt, flat_map file_records listing).
Proof. intros Hall. now rewrite (read_query_defs_lists [] Hall). Qed.

(** X19: an empty definition file stops the startup: [yaml.safe_load]
    yields [None], and extending [query_defs] by it raises [TypeError].
    The records of the files read before it are in [query_defs]; the
    files after it are not read. *)
Theorem read_query_defs_empty_file (before after : list (string * outcome pyval))
    (file : string) :
  Forall file_loads before ->
  ends_with "_tools.yaml" file = true ->
  read_query_defs (before ++ (file, Ret PNone) :: after) []
  = (Raise (Exn "TypeError" "'NoneType' object is not iterable"),
     flat_map file_records before).
Proof.
  intros Hbefore Hfile. rewrite read_query_defs_app. unfold bind at 1.
  rewrite (read_query_defs_lists [] Hbefore). simpl.
  rewrite Hfile. reflexivity.
Qed.

Lemma load_custom_app (a b : list pyval) (ns : namespace) :
  load_custom (a ++ b) ns = (load_custom a ;;; load_custom b) ns.
Proof.
  revert ns. induction a as [|q a IH]; intros ns; [reflexivity|].
  cbn [app load_custom]. rewrite bind_assoc_at.
  apply bind_ext_at. intros _ ns1. apply IH.
Qed.

Lemma load_custom_then (a b : list pyval) (ns ns1 : namespace) :
  load_custom a ns = (Ret tt, ns1) ->
  load_custom (a ++ b) ns = load_custom b ns1.
Proof. intros Ha. rewrite load_custom_app. unfold bind. now rewrite Ha. Qed.

Lemma load_custom_raises (a rest : list pyval) (q : pyval) (ns ns1 ns2 : namespace)
    (x : exn) :
  load_custom a ns = (Ret tt, ns1) ->
  load_record q ns1 = (Raise x, ns2) ->
  load_custom (a ++ q :: rest) ns = (Raise x, ns2).
Proof.
  intros Ha Hq. erewrite load_custom_then by exact Ha. simpl.
  unfold bind. now rewrite Hq.
Qed.



(** X21: a record whose type is neither [tool] nor [prompt] is passed
    over: loading goes on as if the record were not there, whatever
    else the record holds. *)
Theorem load_custom_skips_other_types (a b : list pyval)
    (items : list (pyval * pyval)) (type : pyval) (ns : namespace) :
  dict_get_str items "type" = Some type ->
  equals_str type "tool" = false ->
  equals_str type "prompt" = false ->
  load_custom (a ++ PDict items :: b) ns = load_custom (a ++ b) ns.
Proof.
  intros Htype Htool Hprompt. rewrite !load_custom_app.
  apply bind_ext_at. intros _ ns1. cbn [load_custom].
  unfold load_record, getitem_str. rewrite Htype.
  unfold bind at 2. unfold ret at 1. cbv beta match.
  rewrite Htool, Hprompt. reflexivity.
Qed.

(** X22: a malformed record stops the startup where it stands: a record
    without [type], and a [tool] record without [sql], raise [KeyError];
    a [tool] record whose name is not a string raises [TypeError].  The
    records before it stay loaded, the record itself registers nothing,
    and the records after it are never loaded. *)
Theorem load_custom_malformed (a rest : list pyval) (items : list (pyval * pyval))
    (ns ns1 : namespace) :
  load_custom a ns = (Ret tt, ns1) ->
  (dict_get_str items "type" = None ->
   load_custom (a ++ PDict items :: rest) ns
   = (Raise (Exn "KeyError" "'type'"), ns1)) /\
  (dict_get_str items "type" = Some (PStr "tool") ->
   dict_get_str items "sql" = None ->
   load_custom (a ++ PDict items :: rest) ns
   = (Raise (Exn "KeyError" "'sql'"), ns1)) /\
  (forall sql name,
     dict_get_str items "type" = Some (PStr "tool") ->
     dict_get_str items "sql" = Some sql ->
     dict_get_str items "name" = Some name ->
     (forall n, name <> PStr n) ->
     load_custom (a ++ PDict items :: rest) ns
     = (Raise (Exn "TypeError" "__name__ must be set to a string object"), ns1)).
Proof.
  intros Ha. split; [|split].
  - intros Htype. eapply load_custom_raises; [exact Ha|].
    unfold load_record, bind, getitem_str. now rewrite Htype.
  - intros Htype Hsql. eapply load_custom_raises; [exact Ha|].
    unfold load_record, bind, getitem_str. rewrite Htype. simpl.
    now rewrite Hsql.
  - intros sql name Htype Hsql Hname Hnot. eapply load_custom_raises; [exact Ha|].
    unfold load_record, bind, getitem_str, dict_get, make_custom_query_tool,
      register. rewrite Htype. simpl. rewrite Hsql, Hname. simpl.
    destruct name; try reflexivity. now contradiction (Hnot s).
Qed.

End LoaderFacts.

(** ** Further runs on the simulated world *)

Section MoreSimRuns.

Import Sim.

(** [VS_NAME] made of a no-break space, a space and an ideographic
    space, and [VS_NAME] with a name between two no-break spaces. *)
Lemma module_init_blank_name_witness :
  module_init
    (mkEnviron
       (Some (String (ascii_of_nat 194) (String (ascii_of_nat 160)
                (String " " (String (ascii_of_nat 227) (String (ascii_of_nat 128)
                   (String (ascii_of_nat 128) EmptyString)))))))
       None None None None) false calm
  = (Ret (mkState false 0 false None None None None false (connected calm)
            [EvConnect]),
     connected calm) /\
  forall s0 e,
    module_init
      (mkEnviron
         (Some (String (ascii_of_nat 194) (String (ascii_of_nat 160)
                  (String.append "faq"
                     (String (ascii_of_nat 194) (String (ascii_of_nat 160)
                        EmptyString))))))
         None None None None) false calm = (Ret s0, e) ->
    trace s0 = [EvConnect; EvGetEvs].
Proof.
  split.
  - exact (proj1 (module_init_blank_name
                    (mkEnviron
                       (Some (String (ascii_of_nat 194) (String (ascii_of_nat 160)
                                (String " " (String (ascii_of_nat 227)
                                   (String (ascii_of_nat 128)
                                      (String (ascii_of_nat 128) EmptyString)))))))
                       None None None None)
                    false calm (e1 := connected calm) (h := 0) eq_refl) eq_refl).
  - exact (proj2 (module_init_blank_name
                    (mkEnviron
                       (Some (String (ascii_of_nat 194) (String (ascii_of_nat 160)
                                (String.append "faq"
                                   (String (ascii_of_nat 194)
                                      (String (ascii_of_nat 160) EmptyString))))))
                       None None None None)
                    false calm (e1 := connected calm) (h := 0) eq_refl) eq_refl).
Defined.


Lemma reconnect_to_database_outcomes_witness :
  json_rejects_E /\
  (fst (reconnect_to_database stale)
   = Ret [TextContent "text" "Reconnected to Teradata database successfully."] /\
   _tdconn (snd (reconnect_to_database stale)) = 1 /\
   trace (snd (reconnect_to_database stale)) = [EvConnect; EvTeradataml]) /\
  (fst (reconnect_to_database
          (on_world (with_connect (Raises "connection refused") (ext stale)) stale))
   = Ret (error_envelope "connection refused") /\
   _tdconn (snd (reconnect_to_database
                   (on_world (with_connect (Raises "connection refused")
                                (ext stale)) stale))) = 0).
Proof.
  split; [exact sim_rejects_E|]. split.
  - destruct (reconnect_to_database_outcomes stale sim_rejects_E)
      as [_ [_ [_ Hok]]].
    exact (Hok 1 (connected (ext stale)) (connected (ext stale)) eq_refl eq_refl).
  - destruct (reconnect_to_database_outcomes
                (on_world (with_connect (Raises "connection refused") (ext stale))
                   stale) sim_rejects_E) as [_ [Hfail _]].
    destruct (Hfail (Exn "Exception" "connection refused")
                (with_connect (Raises "connection refused") (ext stale)) eq_refl)
      as [H1 [H2 _]].
    split; assumption.
Defined.

Lemma execute_db_tool_reconnect_failure_witness :
  conn_truthy 0 (with_connect (Raises "connection refused") (ext stale)) = false /\
  _tdconn (snd (execute_db_tool ping [] []
                  (on_world (with_connect (Raises "connection refused") (ext stale))
                     stale))) = 0 /\
  trace (snd (execute_db_tool ping [] []
                (on_world (with_connect (Raises "connection refused") (ext stale))
                   stale))) = [EvConnect] /\
  trace (snd (execute_db_tool ping [] []
                (snd (execute_db_tool ping [] []
                        (on_world (with_connect (Raises "connection refused")
                                     (ext stale)) stale)))))
  = [EvConnect; EvConnect].
Proof.
  split; [reflexivity|].
  destruct (execute_db_tool_reconnect_failure ping [] []
              (on_world (with_connect (Raises "connection refused") (ext stale))
                 stale)
              (x := Exn "Exception" "connection refused")
              (e1 := with_connect (Raises "connection refused") (ext stale))
              eq_refl eq_refl) as [H1 [_ [H2 H3]]].
  split; [exact H1|]. split; [exact H2|].
  exact (H3 eq_refl ping [] [] (Exn "Exception" "connection refused")
           (with_connect (Raises "connection refused") (ext stale)) eq_refl).
Defined.

Lemma shutdown_close_raises_witness :
  fst (shutdown (Some 15%Z)
         (on_world (with_close (Raises "broken pipe") (ext serving)) serving))
  = Raise (Exn "Exception" "broken pipe") /\
  shutdown_in_progress
    (snd (shutdown (Some 15%Z)
            (on_world (with_close (Raises "broken pipe") (ext serving)) serving)))
  = false.
Proof.
  destruct (shutdown_close_raises
              (on_world (with_close (Raises "broken pipe") (ext serving)) serving)
              (Some 15%Z) (x := Exn "Exception" "broken pipe")
              (e1 := with_close (Raises "broken pipe") (ext serving))
              eq_refl eq_refl) as [H1 [_ [H2 _]]].
  split; assumption.
Defined.

Lemma main_port_unset_witness :
  exists msg,
    main (mkEnviron None (Some "SSE") (Some "0.0.0.0") None None) serving
    = (Raise (Exn "TypeError" msg), set_host (Some "0.0.0.0") serving).
Proof.
  apply (main_port_unset (mkEnviron None (Some "SSE") (Some "0.0.0.0") None None)
           serving); [left|]; reflexivity.
Defined.

Lemma materialize_rejects_witness :
  exists msg,
    _materialize (PDict [(PStr "kb_id", PInt 7)]) tt
    = (Raise (Exn "TypeError" msg), tt).
Proof.
  exact (materialize_rejects (PDict [(PStr "kb_id", PInt 7)]) tt I).
Defined.

Lemma execute_vs_tool_refresh_once_witness :
  json_rejects_E /\
  (trace (snd (execute_vs_tool search_tool [] []
                 (on_world (expired (ext serving)) serving)))
   = [EvVsTool 0; EvRefresh; EvVsTool 2] /\
   fst (execute_vs_tool search_tool [] []
          (on_world (expired (ext serving)) serving))
   = Ret [TextContent "text" "hit"]) /\
  (trace (snd (execute_vs_tool refused_tool [] [] serving))
   = [EvVsTool 0; EvRefresh; EvVsTool 1] /\
   fst (execute_vs_tool refused_tool [] [] serving)
   = Ret (error_envelope "After refresh, still failed: Session expired")).
Proof.
  split; [exact sim_rejects_E|]. split.
  - destruct (execute_vs_tool_refresh_once search_tool [] []
                (on_world (expired (ext serving)) serving)
                (v := 0) (v' := 2) (x := Exn "HTTPError" "401 Unauthorized")
                (e1 := expired (ext serving))
                (e2 := refreshed (expired (ext serving)))
                sim_rejects_E eq_refl eq_refl eq_refl eq_refl eq_refl)
      as [H1 [_ H2]].
    split; [exact H1 | exact H2].
  - destruct (execute_vs_tool_refresh_once refused_tool [] [] serving
                (v := 0) (v' := 1) (x := Exn "HTTPError" "Session expired")
                (e1 := ext serving) (e2 := refreshed (ext serving))
                sim_rejects_E eq_refl eq_refl eq_refl eq_refl eq_refl)
      as [H1 [_ H2]].
    split; [exact H1 | exact H2].
Defined.

Lemma execute_vs_tool_other_failure_witness :
  json_rejects_E /\
  fst (execute_vs_tool
         (fun _ _ _ w => (Raise (Exn "ValueError" "top_k must be positive"), w))
         [] [] serving)
  = Ret (error_envelope "top_k must be positive") /\
  trace (snd (execute_vs_tool
                (fun _ _ _ w => (Raise (Exn "ValueError" "top_k must be positive"), w))
                [] [] serving))
  = [EvVsTool 0].
Proof.
  split; [exact sim_rejects_E|].
  exact (execute_vs_tool_other_failure
           (fun _ _ _ w => (Raise (Exn "ValueError" "top_k must be positive"), w))
           [] [] serving (v := 0) (x := Exn "ValueError" "top_k must be positive")
           (e1 := ext serving) sim_rejects_E eq_refl eq_refl eq_refl eq_refl).
Defined.

Lemma read_query_defs_concat_witness :
  read_query_defs
    [("sales_tools.yaml", Ret (PList [Sim2.tool_record "top_sales" "SELECT 1"]));
     ("README.md", Raise (Exn "PermissionError" "README.md"));
     ("hr_tools.yaml",
      Ret (PList [Sim2.prompt_record "ask_hr" "Who is on leave?" "HR";
                  Sim2.tool_record "headcount" "SELECT 2"]))] []
  = (Ret tt,
     [Sim2.tool_record "top_sales" "SELECT 1";
      Sim2.prompt_record "ask_hr" "Who is on leave?" "HR";
      Sim2.tool_record "headcount" "SELECT 2"]).
Proof.
  refine (read_query_defs_concat
            (listing :=
               [("sales_tools.yaml",
                 Ret (PList [Sim2.tool_record "top_sales" "SELECT 1"]));
                ("README.md", Raise (Exn "PermissionError" "README.md"));
                ("hr_tools.yaml",
                 Ret (PList [Sim2.prompt_record "ask_hr" "Who is on leave?" "HR";
                             Sim2.tool_record "headcount" "SELECT 2"]))]) _).
  repeat constructor; intros Hname; try discriminate Hname; eexists; reflexivity.
Defined.

Lemma read_query_defs_empty_file_witness :
  ends_with "_tools.yaml" "empty_tools.yaml" = true /\
  read_query_defs
    [("a_tools.yaml", Ret (PList [Sim2.tool_record "top_sales" "SELECT 1"]));
     ("empty_tools.yaml", Ret PNone);
     ("z_tools.yaml", Ret (PList [Sim2.tool_record "headcount" "SELECT 2"]))] []
  = (Raise (Exn "TypeError" "'NoneType' object is not iterable"),
     [Sim2.tool_record "top_sales" "SELECT 1"]).
Proof.
  split; [reflexivity|].
  refine (read_query_defs_empty_file
            (before :=
               [("a_tools.yaml",
                 Ret (PList [Sim2.tool_record "top_sales" "SELECT 1"]))])
            [("z_tools.yaml", Ret (PList [Sim2.tool_record "headcount" "SELECT 2"]))]
            "empty_tools.yaml" _ eq_refl).
  repeat constructor; intros Hname; eexists; reflexivity.
Defined.


Lemma load_custom_skips_other_types_witness :
  load_custom
    [Sim2.tool_record "top_sales" "SELECT 1";
     PDict [(PStr "type", PStr "view"); (PStr "name", PStr "v1")];
     Sim2.prompt_record "ask_hr" "Who is on leave?" "HR"] (mkNamespace [] [])
  = load_custom
      [Sim2.tool_record "top_sales" "SELECT 1";
       Sim2.prompt_record "ask_hr" "Who is on leave?" "HR"] (mkNamespace [] []).
Proof.
  exact (load_custom_skips_other_types [Sim2.tool_record "top_sales" "SELECT 1"]
           [Sim2.prompt_record "ask_hr" "Who is on leave?" "HR"]
           [(PStr "type", PStr "view"); (PStr "name", PStr "v1")]
           (type := PStr "view") (mkNamespace [] []) eq_refl eq_refl eq_refl).
Defined.

Lemma load_custom_malformed_witness :
  load_custom
    [Sim2.tool_record "top_sales" "SELECT 1";
     PDict [(PStr "name", PStr "untyped"); (PStr "sql", PStr "SELECT 2")];
     Sim2.tool_record "headcount" "SELECT 3"] (mkNamespace [] [])
  = (Raise (Exn "KeyError" "'type'"),
     mkNamespace
       [(PStr "top_sales", DynamicTool (PStr "SELECT 1") (PStr EmptyString))]
       [("top_sales", DynamicTool (PStr "SELECT 1") (PStr EmptyString))]) /\
  load_custom
    [PDict [(PStr "type", PStr "tool"); (PStr "name", PInt 7);
            (PStr "sql", PStr "SELECT 2")]] (mkNamespace [] [])
  = (Raise (Exn "TypeError" "__name__ must be set to a string object"),
     mkNamespace [] []).
Proof.
  split.
  - destruct (load_custom_malformed [Sim2.tool_record "top_sales" "SELECT 1"]
                [Sim2.tool_record "headcount" "SELECT 3"]
                [(PStr "name", PStr "untyped"); (PStr "sql", PStr "SELECT 2")]
                (mkNamespace [] [])
                (ns1 := mkNamespace
                          [(PStr "top_sales",
                            DynamicTool (PStr "SELECT 1") (PStr EmptyString))]
                          [("top_sales",
                            DynamicTool (PStr "SELECT 1") (PStr EmptyString))])
                eq_refl) as [Htype _].
    exact (Htype eq_refl).
  - destruct (load_custom_malformed [] []
                [(PStr "type", PStr "tool"); (PStr "name", PInt 7);
                 (PStr "sql", PStr "SELECT 2")]
                (mkNamespace [] []) (ns1 := mkNamespace [] []) eq_refl)
      as [_ [_ Hname]].
    apply (Hname (PStr "SELECT 2") (PInt 7) eq_refl eq_refl eq_refl).
    intros n Hn. discriminate Hn.
Defined.

End MoreSimRuns.

Section Sim2Runs.

Import Sim Sim2.


Lemma vector_store_best_answer_not_gated_witness :
  json_rejects_E /\
  _enableEVS
    (disabled (with_base (with_evs (Raises "token rejected") (connected Sim.calm))
                 Sim2.calm)) = false /\
  trace (snd (vector_store_best_answer (PStr "reset password") (PInt 2)
                (disabled (with_base (with_evs (Raises "token rejected")
                                        (connected Sim.calm)) Sim2.calm))))
  = [EvDbTool 0] /\
  fst (vector_store_best_answer (PStr "reset password") (PInt 2)
         (disabled (with_base (with_evs (Raises "token rejected")
                                 (connected Sim.calm)) Sim2.calm)))
  = Ret (error_envelope "token rejected").
Proof.
  split; [exact sim_rejects_E|]. split; [reflexivity|].
  destruct (vector_store_best_answer_not_gated (PStr "reset password") (PInt 2)
              (disabled (with_base (with_evs (Raises "token rejected")
                                      (connected Sim.calm)) Sim2.calm))
              sim_rejects_E eq_refl) as [H1 H2].
  split; [exact H1|].
  exact (H2 (Exn "Exception" "token rejected")
           (with_base (with_evs (Raises "token rejected") (connected Sim.calm))
              Sim2.calm) eq_refl).
Defined.

Lemma fs_set_database_witness :
  fs_config (snd (fs_setFeatureStoreConfig None (Some "sales") None
                    (mkFsState fs_config_init Sim2.calm)))
  = mkFeatureStoreConfig None None (Some "sales")
      (Some "sales.FS_V_FEATURE_CATALOG") (Some "sales.FS_V_PROCESS_CATALOG")
      (Some "sales.FS_V_FS_DATASET_CATALOG") /\
  data_domain
    (fs_config (snd (fs_setFeatureStoreConfig None (Some "hr") None
                       (mkFsState configured Sim2.calm)))) = None /\
  data_domain
    (fs_config (snd (fs_setFeatureStoreConfig None (Some "SALES") None
                       (mkFsState configured (Sim2.mkWorld (connected Sim.calm)
                                                Returns ["SALES"] 3)))))
  = Some "retail".
Proof.
  split; [|split].
  - refine (proj1 (fs_set_database (db := "sales")
                     (mkFsState fs_config_init Sim2.calm)
                     (ok := PBool true) (e1 := Sim2.calm) _ eq_refl eq_refl)).
    discriminate.
  - refine (f_equal data_domain
              (proj1 (fs_set_database (db := "hr") (mkFsState configured Sim2.calm)
                        (ok := PBool true) (e1 := Sim2.calm) _ eq_refl eq_refl))).
    discriminate.
  - refine (f_equal data_domain
              (proj1 (fs_set_database (db := "SALES")
                        (mkFsState configured (Sim2.mkWorld (connected Sim.calm)
                                                 Returns ["SALES"] 3))
                        (ok := PBool true)
                        (e1 := Sim2.mkWorld (connected Sim.calm) Returns ["SALES"] 3)
                        _ eq_refl eq_refl))).
    discriminate.
Defined.

Lemma fs_set_entity_alone_raises_witness :
  fs_setFeatureStoreConfig None None (Some "customer")
    (mkFsState configured Sim2.calm)
  = (Raise (Exn "AttributeError" "'NoneType' object has no attribute 'upper'"),
     mkFsState configured Sim2.calm).
Proof.
  exact (fs_set_entity_alone_raises "customer" (d := "sales") (dd := "retail")
           (mkFsState configured Sim2.calm) eq_refl eq_refl).
Defined.

Lemma fs_set_domain_witness :
  data_domain
    (fs_config (snd (fs_setFeatureStoreConfig (Some "wholesale") None None
                       (mkFsState configured Sim2.calm)))) = Some "wholesale" /\
  data_domain
    (fs_config (snd (fs_setFeatureStoreConfig (Some "wholesale") None
                       (Some "customer")
                       (mkFsState configured (with_count 0 Sim2.calm))))) = None.
Proof.
  split.
  - exact (f_equal (fun s => data_domain (fs_config s))
             (proj2 (fs_set_domain "wholesale" (d := "sales") (b := true)
                       (mkFsState configured Sim2.calm)
                       (s1 := mkFsState configured Sim2.calm) eq_refl eq_refl)
                eq_refl)).
  - exact (f_equal (fun s => data_domain (fs_config s))
             (proj1 (fs_set_domain "wholesale" (d := "sales") (b := false)
                       (mkFsState configured (with_count 0 Sim2.calm))
                       (s1 := mkFsState configured (with_count 0 Sim2.calm))
                       eq_refl eq_refl)
                eq_refl (Some "customer"))).
Defined.

End Sim2Runs.
